(** * tok_gen.py: issuing and verifying signed tokens

    A shallow embedding of [src/tok_gen.py] (the functions [create_token]
    and [verify_token] and the command-line dispatcher under
    [if __name__ == "__main__"]), followed by the properties of the
    specification, proved or refuted on that embedding.

    Conventions of the embedding.
    - A Python [str] is a Rocq [string]; its characters are the code points
      0..255.  [None] for an optional argument is [None] in [option string].
    - A Python [int] is a [Z]; the value of a Python [float] is a [Q] (the
      rational number the double stands for), so that [int(x)] is exact.
    - A naive [datetime] is the number of microseconds between
      1970-01-01T00:00:00 and the wall-clock reading it holds, with its
      [fold] attribute; a [timedelta] is a whole number of seconds here.
    - What the program reads from its surroundings (the environment
      variables, the clock, the local time zone, the interpreter's limit on
      integer literals) is a [Host]; the PyJWT calls are a [Library].
    - What the program does to its surroundings is a trace of [event]s: the
      lines it prints and the calls it makes into the library. *)

From Stdlib Require Import ZArith QArith Ascii String List Bool Lia.
From Stdlib Require Import Uint63 PrimFloat SpecFloat FloatOps.
From stdpp Require Import base option strings gmap.

Open Scope string_scope.
Open Scope list_scope.
Open Scope Z_scope.
Import ListNotations.

(** ** Python values, exceptions and results *)

Inductive pyval : Type :=
  | PStr (s : string)
  | PInt (z : Z)
  | POther (shown : string).

(** A [dict] keeps its insertion order. *)
Definition dict : Type := list (string * pyval).

Fixpoint dict_get (d : dict) (k : string) : option pyval :=
  match d with
  | [] => None
  | (k', v) :: d' => if String.eqb k' k then Some v else dict_get d' k
  end.

(** [d[k] = v]: replaces the value of an existing key in place, appends a
    new key. *)
Fixpoint dict_set (d : dict) (k : string) (v : pyval) : dict :=
  match d with
  | [] => [(k, v)]
  | (k', v') :: d' =>
      if String.eqb k' k then (k', v) :: d' else (k', v') :: dict_set d' k v
  end.

Definition dict_keys (d : dict) : list string := map fst d.

(** An exception: its class, the classes it derives from, and the text of
    [str(e)] when the program itself composed it ([None] for a text composed
    inside the interpreter or a library). *)
Record exn : Type := Exn {
  exn_class : string;
  exn_bases : list string;
  exn_text : option string
}.

(** [isinstance(e, c)], which is what an [except c:] clause tests. *)
Definition isinstance (e : exn) (c : string) : bool :=
  String.eqb (exn_class e) c || existsb (String.eqb c) (exn_bases e).

Definition ValueError (text : option string) : exn :=
  Exn "ValueError" ["Exception"; "BaseException"] text.

Definition OverflowError : exn :=
  Exn "OverflowError" ["ArithmeticError"; "Exception"; "BaseException"] None.

Inductive result (A : Type) : Type :=
  | Return (a : A)
  | Raise (e : exn).
Arguments Return {A} a.
Arguments Raise {A} e.

Definition result_map {A B : Type} (f : A -> B) (r : result A) : result B :=
  match r with
  | Return a => Return (f a)
  | Raise e => Raise e
  end.

(** ** Strings: [endswith] and [s[:-1]] *)

Fixpoint last_char (s : string) : option ascii :=
  match s with
  | EmptyString => None
  | String a EmptyString => Some a
  | String _ r => last_char r
  end.

(** [s.endswith(c)] for a one-character [c]. *)
Definition endswith (s : string) (c : ascii) : bool :=
  match last_char s with
  | Some a => Ascii.eqb a c
  | None => false
  end.

(** [s[:-1]]. *)
Fixpoint drop_last (s : string) : string :=
  match s with
  | EmptyString => EmptyString
  | String _ EmptyString => EmptyString
  | String a r => String a (drop_last r)
  end.

(** Truth value of an optional string: [None] and [""] are false. *)
Definition truthy (s : option string) : bool :=
  match s with
  | Some (String _ _) => true
  | _ => false
  end.

(** ** [int(s)] for a string, base 10

    CPython strips white space on both sides (for code points up to 255:
    TAB, LF, VT, FF, CR, space, NEL and NBSP), reads one optional sign, then
    a run of digits in which single underscores may separate digits, and
    raises [ValueError] on anything else.  A literal of more than
    [sys.get_int_max_str_digits()] digits raises [ValueError] too when that
    limit is positive; the limit is only looked at above 640 digits. *)

Definition is_space (a : ascii) : bool :=
  let n := Z.of_N (N_of_ascii a) in
  ((9 <=? n) && (n <=? 13)) || (n =? 32) || (n =? 133) || (n =? 160).

Definition digit_value (a : ascii) : option Z :=
  let n := Z.of_N (N_of_ascii a) in
  if (48 <=? n) && (n <=? 57) then Some (n - 48) else None.

Fixpoint skip_spaces (s : string) : string :=
  match s with
  | String a r => if is_space a then skip_spaces r else s
  | EmptyString => EmptyString
  end.

Fixpoint all_spaces (s : string) : bool :=
  match s with
  | String a r => is_space a && all_spaces r
  | EmptyString => true
  end.

(** The run of digits and underscores after the first digit: the value so
    far, the number of digits so far, whether the previous character was an
    underscore.  Returns the value, the digit count and what follows the
    run; [None] for a doubled or trailing underscore. *)
Fixpoint digit_run (s : string) (after_underscore : bool) (acc count : Z)
  : option (Z * Z * string) :=
  match s with
  | String a r =>
      match digit_value a with
      | Some d => digit_run r false (10 * acc + d) (count + 1)
      | None =>
          if Ascii.eqb a "_" then
            if after_underscore then None else digit_run r true acc count
          else if after_underscore then None else Some (acc, count, s)
      end
  | EmptyString => if after_underscore then None else Some (acc, count, s)
  end.

Definition str_digits_check_threshold : Z := 640.

Definition invalid_literal : exn := ValueError None.

Definition py_int (max_str_digits : Z) (s : string) : result Z :=
  let s := skip_spaces s in
  let '(sign, s) :=
    match s with
    | String "+" r => (1, r)
    | String "-" r => (-1, r)
    | _ => (1, s)
    end in
  match s with
  | String a r =>
      match digit_value a with
      | Some d =>
          match digit_run r false d 1 with
          | Some (v, count, rest) =>
              if negb (all_spaces rest) then Raise invalid_literal
              else if (str_digits_check_threshold <? count)
                      && (0 <? max_str_digits) && (max_str_digits <? count)
              then Raise invalid_literal
              else Return (sign * v)
          | None => Raise invalid_literal
          end
      | None => Raise invalid_literal
      end
  | EmptyString => Raise invalid_literal
  end.

(** ** [datetime.timedelta] and naive [datetime] arithmetic *)

Record timedelta : Type := Timedelta { total_seconds : Z }.

Definition max_delta_days : Z := 999999999.

(** [timedelta(days=n)]: [OverflowError] beyond 999999999 days either way. *)
Definition timedelta_days (n : Z) : result timedelta :=
  if (- max_delta_days <=? n) && (n <=? max_delta_days)
  then Return (Timedelta (n * 86400))
  else Raise OverflowError.

(** [timedelta(hours=n)]: normalised to days and seconds, the days being
    [n // 24], with the same bound on the days. *)
Definition timedelta_hours (n : Z) : result timedelta :=
  if (- max_delta_days <=? n / 24) && (n / 24 <=? max_delta_days)
  then Return (Timedelta (n * 3600))
  else Raise OverflowError.

(** A naive [datetime]: the wall-clock reading in microseconds since
    1970-01-01T00:00:00, and [fold], which is 1 on the second pass through
    a wall-clock time that a zone repeats. *)
Record datetime : Type := Datetime { wall : Z; fold : bool }.

(** [datetime.min] and [datetime.max] in microseconds since 1970-01-01. *)
Definition datetime_min : Z := -62135596800000000.
Definition datetime_max : Z := 253402300799999999.

(** [dt + delta]: [OverflowError] when the year leaves 1..9999; the sum has
    [fold] 0 whatever [dt] had. *)
Definition datetime_add (dt : datetime) (delta : timedelta) : result datetime :=
  let r := wall dt + total_seconds delta * 1000000 in
  if (datetime_min <=? r) && (r <=? datetime_max)
  then Return (Datetime r false)
  else Raise OverflowError.

(** [int(x)] for a float [x]: truncation towards zero. *)
Definition int_of_float (x : Q) : Z := Z.quot (Qnum x) (Zpos (Qden x)).

(** ** The surroundings of the program *)

(** What the interpreter and the operating system hand to the program. *)
Record Host : Type := {
  environ : gmap string string;      (* os.environ *)
  now : datetime;                    (* datetime.datetime.now(), naive *)
  timestamp : datetime -> result Q;  (* naive_datetime.timestamp() *)
  clock : Q;                         (* POSIX time, as jwt.decode reads it *)
  int_max_str_digits : Z             (* sys.get_int_max_str_digits() *)
}.

(** The two PyJWT entry points the program calls.  [jwt_encode payload key
    algorithm]; [jwt_decode time token key algorithms], where [time] is the
    POSIX time at which the call runs. *)
Record Library : Type := {
  jwt_encode : dict -> string -> string -> result string;
  jwt_decode : Q -> string -> string -> list string -> result dict
}.

(** What the program does that can be seen from outside. *)
Inductive event : Type :=
  | Print (line : string)                   (* print(line) *)
  | Print_payload (payload : dict)          (* print(f"create token: {payload}") *)
  | Print_claim (key : string) (value : pyval)   (* print(f"{key}: {value}") *)
  | Print_error (e : exn)                   (* print(f"Error: {e}") *)
  | Print_help                              (* argparse's help text *)
  | Jwt_encode (payload : dict) (key algorithm : string)
  | Jwt_decode (token key : string) (algorithms : list string).

(** A computation: the events it produced, and how it ended. *)
Definition M (A : Type) : Type := list event * result A.

Definition bind {A B : Type} (c : M A) (k : A -> M B) : M B :=
  match c with
  | (ev, Return a) => let '(ev', r) := k a in (ev ++ ev', r)
  | (ev, Raise e) => (ev, Raise e)
  end.

Definition lift {A : Type} (r : result A) : M A := ([], r).
Definition emit (e : event) : M unit := ([e], Return tt).
Definition call {A : Type} (e : event) (r : result A) : M A := ([e], r).

Notation "'let*' x ':=' c 'in' k" := (bind c (fun x => k))
  (at level 10, x name, c at level 100, k at level 200).

(** ** [create_token] *)

Definition fallback_secret : string :=
  "your-secret-key-here-replace-in-production".

(** [os.environ.get(k, d)]. *)
Definition environ_get (h : Host) (k d : string) : string :=
  default d (environ h !! k).

(** [a or b] for an optional string [a]. *)
Definition py_or (a : option string) (b : string) : string :=
  match a with
  | Some (String _ _ as s) => s
  | _ => b
  end.

(** Lines 30-35: the [if]/[elif]/[else] that turns [expires_in] into
    [expires_delta]. *)
Definition expires_delta (h : Host) (expires_in : string) : result timedelta :=
  if endswith expires_in "h" then
    match py_int (int_max_str_digits h) (drop_last expires_in) with
    | Return n => timedelta_hours n
    | Raise e => Raise e
    end
  else if endswith expires_in "d" then
    match py_int (int_max_str_digits h) (drop_last expires_in) with
    | Return n => timedelta_days n
    | Raise e => Raise e
    end
  else timedelta_hours 24.

Definition create_token (L : Library) (h : Host) (subject : string)
    (name : option string) (expires_in : string) (secret : option string)
  : M string :=
  let secret := py_or secret (environ_get h "JWT_SECRET" fallback_secret) in
  let* delta := lift (expires_delta h expires_in) in
  let issued_at := now h in
  let* expires_at := lift (datetime_add issued_at delta) in
  let* iat := lift (result_map int_of_float (timestamp h issued_at)) in
  let* exp := lift (result_map int_of_float (timestamp h expires_at)) in
  let payload := [("sub", PStr subject); ("iat", PInt iat); ("exp", PInt exp)] in
  let* _ := emit (Print_payload payload) in
  let payload :=
    match name with
    | Some (String _ _ as n) => dict_set payload "name" (PStr n)
    | _ => payload
    end in
  call (Jwt_encode payload secret "HS256") (jwt_encode L payload secret "HS256").

(** ** [verify_token] *)

Definition verify_token (L : Library) (h : Host) (token : string)
    (secret : option string) : M dict :=
  let secret := py_or secret (environ_get h "JWT_SECRET" fallback_secret) in
  call (Jwt_decode token secret ["HS256"])
    match jwt_decode L (clock h) token secret ["HS256"] with
    | Return payload => Return payload
    | Raise e =>
        if isinstance e "jwt.ExpiredSignatureError"
        then Raise (ValueError (Some "Token has expired"))
        else if isinstance e "jwt.InvalidTokenError"
        then Raise (ValueError (Some "Invalid token"))
        else Raise e
    end.

(** ** The command line

    [parse_args] is argparse for the six options the program declares, on
    command lines in the plain form: every option written with one of its
    two exact names, every value a separate argument that does not start
    with a dash.  For the other forms argparse knows (abbreviated names,
    [--name=value], [-nvalue], [--], values that look like negative
    numbers) the model gives no answer ([None]). *)

Record Namespace : Type := {
  args_subject : string;             (* required=True *)
  args_name : option string;
  args_expires : string;             (* default="24h" *)
  args_secret : option string;
  args_verify : bool;                (* action="store_true" *)
  args_token : option string
}.

Inductive option_name : Type :=
  | Osubject | Oname | Oexpires | Osecret | Overify | Otoken | Ohelp.

Definition option_of_string (a : string) : option option_name :=
  if String.eqb a "--subject" || String.eqb a "-s" then Some Osubject
  else if String.eqb a "--name" || String.eqb a "-n" then Some Oname
  else if String.eqb a "--expires" || String.eqb a "-e" then Some Oexpires
  else if String.eqb a "--secret" then Some Osecret
  else if String.eqb a "--verify" || String.eqb a "-v" then Some Overify
  else if String.eqb a "--token" || String.eqb a "-t" then Some Otoken
  else if String.eqb a "--help" || String.eqb a "-h" then Some Ohelp
  else None.

Definition starts_with_dash (a : string) : bool :=
  match a with
  | String "-" _ => true
  | _ => false
  end.

(** The options seen so far; [None] where argparse still holds [None]. *)
Record seen : Type := Seen {
  seen_subject : option string;
  seen_name : option string;
  seen_expires : option string;
  seen_secret : option string;
  seen_verify : bool;
  seen_token : option string;
  seen_extras : bool                 (* a stray positional argument *)
}.

Definition nothing_seen : seen := Seen None None None None false None false.

Definition store (o : option_name) (v : string) (s : seen) : seen :=
  match o with
  | Osubject => Seen (Some v) (seen_name s) (seen_expires s) (seen_secret s)
                  (seen_verify s) (seen_token s) (seen_extras s)
  | Oname => Seen (seen_subject s) (Some v) (seen_expires s) (seen_secret s)
                  (seen_verify s) (seen_token s) (seen_extras s)
  | Oexpires => Seen (seen_subject s) (seen_name s) (Some v) (seen_secret s)
                  (seen_verify s) (seen_token s) (seen_extras s)
  | Osecret => Seen (seen_subject s) (seen_name s) (seen_expires s) (Some v)
                  (seen_verify s) (seen_token s) (seen_extras s)
  | Otoken => Seen (seen_subject s) (seen_name s) (seen_expires s)
                  (seen_secret s) (seen_verify s) (Some v) (seen_extras s)
  | Overify | Ohelp => s
  end.

Definition store_true (s : seen) : seen :=
  Seen (seen_subject s) (seen_name s) (seen_expires s) (seen_secret s)
       true (seen_token s) (seen_extras s).

Definition stray (s : seen) : seen :=
  Seen (seen_subject s) (seen_name s) (seen_expires s) (seen_secret s)
       (seen_verify s) (seen_token s) true.

(** How [parser.parse_args()] ends: with a namespace, or by leaving the
    program ([SystemExit]) with a status, after printing the help text when
    the status is 0. *)
Inductive parsed : Type :=
  | Parsed (args : Namespace)
  | Parser_exit (status : Z).

Fixpoint scan (argv : list string) (s : seen) : option (seen + Z) :=
  match argv with
  | [] => Some (inl s)
  | a :: rest =>
      match option_of_string a with
      | Some Ohelp => Some (inr 0)
      | Some Overify => scan rest (store_true s)
      | Some o =>
          match rest with
          | [] => Some (inr 2)
          | v :: rest' =>
              if starts_with_dash v then
                match option_of_string v with
                | Some _ => Some (inr 2)
                | None => None
                end
              else scan rest' (store o v s)
          end
      | None => if starts_with_dash a then None else scan rest (stray s)
      end
  end.

Definition parse_args (argv : list string) : option parsed :=
  match scan argv nothing_seen with
  | None => None
  | Some (inr status) => Some (Parser_exit status)
  | Some (inl s) =>
      match seen_subject s with
      | None => Some (Parser_exit 2)
      | Some subject =>
          if seen_extras s then Some (Parser_exit 2)
          else Some (Parsed {|
                 args_subject := subject;
                 args_name := seen_name s;
                 args_expires := default "24h" (seen_expires s);
                 args_secret := seen_secret s;
                 args_verify := seen_verify s;
                 args_token := seen_token s |})
      end
  end.

(** Lines 87-100: what runs once the arguments are parsed.  The result is
    the trace and the exit status of the process: 0 when the block runs to
    its end, the argument of [exit], 1 when an exception is not caught. *)
Definition dispatch (L : Library) (h : Host) (args : Namespace)
  : list event * Z :=
  if args_verify args then
    match args_token args with
    | Some (String _ _ as token) =>
        match verify_token L h token (args_secret args) with
        | (ev, Return decoded) =>
            (ev ++ Print "Token is valid. Payload:"
                :: map (fun kv => Print_claim (fst kv) (snd kv)) decoded, 0)
        | (ev, Raise e) =>
            if isinstance e "ValueError" then (ev ++ [Print_error e], 0)
            else (ev, 1)
        end
    | _ => ([Print "Error: --token is required when using --verify"], 1)
    end
  else
    match create_token L h (args_subject args) (args_name args)
            (args_expires args) (args_secret args) with
    | (ev, Return token) => (ev ++ [Print token], 0)
    | (ev, Raise e) => (ev, 1)
    end.

(** Lines 76-100. *)
Definition main (L : Library) (h : Host) (argv : list string)
  : option (list event * Z) :=
  match parse_args argv with
  | None => None
  | Some (Parser_exit status) =>
      Some (if status =? 0 then [Print_help] else [], status)
  | Some (Parsed args) => Some (dispatch L h args)
  end.

(** ** A reference library and two hosts

    The theorems below hold for every [Library] and every [Host].  The
    library and the hosts of this section are instances on which they are
    run: a token here is a plain rendering of the key and the claims, so
    that decoding can check the key, the expiry and the issue time the way
    PyJWT does. *)

Module Reference.

(** One field: every character behind a [+], then a comma. *)
Fixpoint ser_field (s : string) : string :=
  match s with
  | EmptyString => ","
  | String c r => String "+" (String c (ser_field r))
  end.

Fixpoint ser_fields (fs : list string) : string :=
  match fs with
  | [] => "."
  | f :: r => String.append (ser_field f) (ser_fields r)
  end.

(** [cur] builds the field being read. *)
Fixpoint parse_fields (s : string) (cur : string -> string)
  : option (list string) :=
  match s with
  | String "." EmptyString => Some []
  | String "," r =>
      match parse_fields r (fun t => t) with
      | Some fs => Some (cur EmptyString :: fs)
      | None => None
      end
  | String "+" (String c r) => parse_fields r (fun t => cur (String c t))
  | _ => None
  end.

Fixpoint pos_bits (p : positive) : string :=
  match p with
  | xH => EmptyString
  | xO q => String "0" (pos_bits q)
  | xI q => String "1" (pos_bits q)
  end.

Fixpoint bits_pos (s : string) : option positive :=
  match s with
  | EmptyString => Some xH
  | String "0" r => option_map xO (bits_pos r)
  | String "1" r => option_map xI (bits_pos r)
  | _ => None
  end.

Definition ser_value (v : pyval) : string :=
  match v with
  | PStr s => String "s" s
  | PInt Z0 => "z"
  | PInt (Zpos p) => String "p" (pos_bits p)
  | PInt (Zneg p) => String "n" (pos_bits p)
  | POther s => String "o" s
  end.

Definition parse_value (s : string) : option pyval :=
  match s with
  | String "s" r => Some (PStr r)
  | String "z" EmptyString => Some (PInt 0)
  | String "p" r => option_map (fun p => PInt (Zpos p)) (bits_pos r)
  | String "n" r => option_map (fun p => PInt (Zneg p)) (bits_pos r)
  | String "o" r => Some (POther r)
  | _ => None
  end.

Fixpoint dict_fields (d : dict) : list string :=
  match d with
  | [] => []
  | (k, v) :: r => k :: ser_value v :: dict_fields r
  end.

Fixpoint fields_dict (fs : list string) : option dict :=
  match fs with
  | [] => Some []
  | k :: v :: r =>
      match parse_value v, fields_dict r with
      | Some v', Some d => Some ((k, v') :: d)
      | _, _ => None
      end
  | _ => None
  end.

Definition ser_token (key : string) (payload : dict) : string :=
  ser_fields (key :: dict_fields payload).

Definition parse_token (token : string) : option (string * dict) :=
  match parse_fields token (fun t => t) with
  | Some (key :: fs) => option_map (pair key) (fields_dict fs)
  | _ => None
  end.

(** PyJWT's exception classes, as far as the program can meet them. *)
Definition jwt_error (class : string) (bases : list string) : exn :=
  Exn class (bases ++ ["jwt.PyJWTError"; "Exception"; "BaseException"]) None.

Definition DecodeError : exn :=
  jwt_error "jwt.DecodeError" ["jwt.InvalidTokenError"].
Definition InvalidSignatureError : exn :=
  jwt_error "jwt.InvalidSignatureError"
    ["jwt.DecodeError"; "jwt.InvalidTokenError"].
Definition ExpiredSignatureError : exn :=
  jwt_error "jwt.ExpiredSignatureError" ["jwt.InvalidTokenError"].
Definition ImmatureSignatureError : exn :=
  jwt_error "jwt.ImmatureSignatureError" ["jwt.InvalidTokenError"].
Definition InvalidAlgorithmError : exn :=
  jwt_error "jwt.InvalidAlgorithmError" ["jwt.InvalidTokenError"].
(** Not an [InvalidTokenError]: PyJWT derives it from [PyJWTError]. *)
Definition InvalidKeyError : exn :=
  jwt_error "jwt.InvalidKeyError" [].

(** [pat in s]. *)
Fixpoint contains (pat s : string) : bool :=
  String.prefix pat s ||
  match s with
  | String _ r => contains pat r
  | EmptyString => false
  end.

(** What follows each place where [pat] stands in [s]. *)
Fixpoint after (pat s : string) : list string :=
  (if String.prefix pat s
   then [String.substring (String.length pat)
           (String.length s - String.length pat) s]
   else []) ++
  match s with
  | String _ r => after pat r
  | EmptyString => []
  end.

Definition CR : string := String (ascii_of_nat 13) EmptyString.
Definition LF : string := String (ascii_of_nat 10) EmptyString.

(** PyJWT's [is_pem_format]: somewhere in the key a line
    [-----BEGIN label-----] (the dash next to the word may be a space), a
    line break, at least one character, a line break and the matching
    [-----END label-----]. *)
Definition pem_labels : list string :=
  ["CERTIFICATE"; "TRUSTED CERTIFICATE"; "PRIVATE KEY"; "PUBLIC KEY";
   "ENCRYPTED PRIVATE KEY"; "OPENSSH PRIVATE KEY"; "DSA PRIVATE KEY";
   "RSA PRIVATE KEY"; "RSA PUBLIC KEY"; "EC PRIVATE KEY"; "DH PARAMETERS";
   "NEW CERTIFICATE REQUEST"; "CERTIFICATE REQUEST"; "SSH2 PUBLIC KEY";
   "SSH2 ENCRYPTED PRIVATE KEY"; "X509 CRL"].

Definition pem_line (word label d1 d2 : string) : string :=
  String.append "----" (String.append d1 (String.append word
    (String.append " " (String.append label (String.append d2 "----"))))).

Definition is_pem_format (key : string) : bool :=
  existsb (fun label =>
    existsb (fun d1 => existsb (fun d2 => existsb (fun break =>
      existsb (fun body =>
        match body with
        | String _ rest =>
            existsb (fun d3 => existsb (fun d4 =>
              contains (String.append LF (pem_line "END" label d3 d4)) rest)
              ["-"; " "]) ["-"; " "]
        | EmptyString => false
        end)
        (after (String.append (pem_line "BEGIN" label d1 d2) break) key))
      [LF; String.append CR LF]) ["-"; " "]) ["-"; " "])
    pem_labels.

(** PyJWT's [is_ssh_key]: the key names an SSH key format anywhere, or
    starts with a word that ends in the certificate suffix, then blanks,
    then another word. *)
Definition ssh_key_formats : list string :=
  ["ssh-ed25519"; "ssh-rsa"; "ssh-dss"; "ecdsa-sha2-nistp256";
   "ecdsa-sha2-nistp384"; "ecdsa-sha2-nistp521"].

Definition is_byte_space (a : ascii) : bool :=
  let n := Z.of_N (N_of_ascii a) in ((9 <=? n) && (n <=? 13)) || (n =? 32).

Definition is_blank (a : ascii) : bool :=
  Ascii.eqb a " " || Ascii.eqb a (ascii_of_nat 9).

Fixpoint first_word (s : string) : string * string :=
  match s with
  | String a r =>
      if is_byte_space a then (EmptyString, s)
      else let '(w, rest) := first_word r in (String a w, rest)
  | EmptyString => (EmptyString, EmptyString)
  end.

Fixpoint skip_blanks (s : string) : string :=
  match s with
  | String a r => if is_blank a then skip_blanks r else s
  | EmptyString => EmptyString
  end.

Definition ends_with (suffix s : string) : bool :=
  (String.length suffix <=? String.length s)%nat &&
  String.eqb suffix
    (String.substring (String.length s - String.length suffix)
       (String.length suffix) s).

Definition is_ssh_key (key : string) : bool :=
  existsb (fun format => contains format key) ssh_key_formats ||
  let '(word, rest) := first_word key in
  match word, rest with
  | String _ _, String a _ =>
      is_blank a &&
      match skip_blanks rest with
      | String b _ => negb (is_byte_space b)
      | EmptyString => false
      end &&
      ends_with "-cert-v01@openssh.com" word
  | _, _ => false
  end.

(** The keys PyJWT's HMAC algorithm refuses with [InvalidKeyError]. *)
Definition is_pem (key : string) : bool := is_pem_format key || is_ssh_key key.

Definition claim_int (p : dict) (k : string) : option Z :=
  match dict_get p k with
  | Some (PInt z) => Some z
  | _ => None
  end.

Definition encode (payload : dict) (key algorithm : string) : result string :=
  if negb (String.eqb algorithm "HS256") then Raise InvalidAlgorithmError
  else if is_pem key then Raise InvalidKeyError
  else Return (ser_token key payload).

Definition decode (time : Q) (token key : string) (algorithms : list string)
  : result dict :=
  match parse_token token with
  | None => Raise DecodeError
  | Some (signer, payload) =>
      if negb (existsb (String.eqb "HS256") algorithms)
      then Raise InvalidAlgorithmError
      else if is_pem key then Raise InvalidKeyError
      else if negb (String.eqb signer key) then Raise InvalidSignatureError
      else if match claim_int payload "iat" with
              | Some iat => negb (Qle_bool (inject_Z iat) time)
              | None => false
              end
      then Raise ImmatureSignatureError
      else if match claim_int payload "exp" with
              | Some exp => Qle_bool (inject_Z exp) time
              | None => false
              end
      then Raise ExpiredSignatureError
      else Return payload
  end.

Definition pyjwt : Library := {| jwt_encode := encode; jwt_decode := decode |}.

(** CPython's [seconds + microsecond / 1e6] in double arithmetic: the
    value of the double that [timestamp()] returns for a datetime the zone
    places at [seconds] after 1970. *)
Definition float_of_Z (z : Z) : float :=
  if z <? 0 then PrimFloat.opp (PrimFloat.of_uint63 (Uint63.of_Z (- z)))
  else PrimFloat.of_uint63 (Uint63.of_Z z).

Definition Q_of_float (x : float) : Q :=
  match Prim2SF x with
  | S754_finite s m e =>
      let n := if s then Zneg m else Zpos m in
      if e <? 0 then Qmake n (Z.to_pos (2 ^ (- e))) else Qmake (n * 2 ^ e) 1
  | _ => 0%Q
  end.

Definition double_timestamp (seconds microsecond : Z) : Q :=
  Q_of_float
    (PrimFloat.add (float_of_Z seconds)
       (PrimFloat.div (float_of_Z microsecond) (float_of_Z 1000000))).

(** [timestamp()] in a zone that is [offset dt] seconds east of UTC at the
    reading [dt]. *)
Definition zone_timestamp (offset : datetime -> Z) (dt : datetime) : Q :=
  double_timestamp (wall dt / 1000000 - offset dt) (wall dt mod 1000000).

(** 2026-03-07T12:00:00 on the wall clock. *)
Definition noon : Z := 1772884800000000.

(** A host on UTC whose clock reads [issue].  [timestamp()] looks a day
    back (a day ahead when [fold] is 1) and raises [ValueError] when that
    leaves the years 1 to 9999. *)
Definition utc_timestamp (dt : datetime) : result Q :=
  if (if fold dt then datetime_max - 86400000000 <? wall dt
      else wall dt <? datetime_min + 86400000000)
  then Raise (ValueError None)
  else Return (zone_timestamp (fun _ => 0) dt).

Definition utc_host_at (issue : datetime) (time : Q) : Host := {|
  environ := ∅;
  now := issue;
  timestamp := utc_timestamp;
  clock := time;
  int_max_str_digits := 4300
|}.

Definition utc_host (time : Q) : Host := utc_host_at (Datetime noon false) time.

(** A host on New York time, for wall-clock readings between the two
    changes of November 2025 and November 2026: five hours behind UTC until
    the wall clock reads 2026-03-08T02:00:00, four hours behind from
    03:00:00 on; the hour in between does not exist, and a reading in it is
    taken five hours behind with [fold] 0 and four with [fold] 1. *)
Definition new_york_offset (dt : datetime) : Z :=
  if wall dt <? 1772935200000000 then -18000
  else if wall dt <? 1772938800000000
       then (if fold dt then -14400 else -18000)
       else -14400.

Definition new_york_host (time : Q) : Host := {|
  environ := ∅;
  now := Datetime noon false;
  timestamp := fun dt => Return (zone_timestamp new_york_offset dt);
  clock := time;
  int_max_str_digits := 4300
|}.

(** A host at Troll station (zone Antarctica/Troll), for wall-clock
    readings between the changes of March 2026 and March 2027: two hours
    ahead of UTC until 2026-10-25T03:00:00 on the wall clock, which then
    goes back to 01:00:00 on UTC; the two hours from 01:00:00 are read two
    hours ahead with [fold] 0 and on UTC with [fold] 1.  The clock of the
    host reads 01:30:00 for the second time. *)
Definition troll_offset (dt : datetime) : Z :=
  if wall dt <? 1792890000000000 then 7200
  else if wall dt <? 1792897200000000
       then (if fold dt then 0 else 7200)
       else 0.

Definition troll_host (time : Q) : Host := {|
  environ := ∅;
  now := Datetime 1792891800000000 true;
  timestamp := fun dt => Return (zone_timestamp troll_offset dt);
  clock := time;
  int_max_str_digits := 4300
|}.

End Reference.

(** ** Words of the specification *)

(** The claims record before the optional name: [sub], [iat], [exp]. *)
Definition claims (subject : string) (iat exp : Z) : dict :=
  [("sub", PStr subject); ("iat", PInt iat); ("exp", PInt exp)].

(** The three tiers of the secret, as the specification lists them: the
    argument when there is one (an empty one counts as none), else the
    environment variable [JWT_SECRET] when it is set, else the literal. *)
Definition resolve_secret (h : Host) (secret : option string) : string :=
  match secret with
  | Some s =>
      if String.eqb s "" then
        match environ h !! "JWT_SECRET" with
        | Some v => v
        | None => fallback_secret
        end
      else s
  | None =>
      match environ h !! "JWT_SECRET" with
      | Some v => v
      | None => fallback_secret
      end
  end.

(** The host's [timestamp] takes the datetime [dt] for a reading
    [offset] seconds east of UTC: [int(dt.timestamp())] is within a second
    of the POSIX time of that reading.  The second of slack is there for
    the double, which holds a time late in the calendar only to within
    some microseconds and so may round it up to the next whole second. *)
Definition reads_offset (h : Host) (offset : Z) (dt : datetime) : Prop :=
  exists x : Q,
    timestamp h dt = Return x /\
    wall dt - offset * 1000000 - 1000000
    <= int_of_float x * 1000000
    <= wall dt - offset * 1000000 + 1000000.

(** The same without slack: [int(dt.timestamp())] is that POSIX time cut
    to the whole second towards zero, as it is whenever the double holds
    the time to the microsecond. *)
Definition reads_second (h : Host) (offset : Z) (dt : datetime) : Prop :=
  exists x : Q,
    timestamp h dt = Return x /\
    int_of_float x = (wall dt - offset * 1000000) ÷ 1000000.

(** Lines 70-74: what [verify_token] makes of the answer of [jwt.decode]. *)
Definition surfaced (answer : result dict) : result dict :=
  match answer with
  | Return payload => Return payload
  | Raise e =>
      if isinstance e "jwt.ExpiredSignatureError"
      then Raise (ValueError (Some "Token has expired"))
      else if isinstance e "jwt.InvalidTokenError"
      then Raise (ValueError (Some "Invalid token"))
      else Raise e
  end.

(** The payload [create_token] hands to the library. *)
Definition payload_of (subject : string) (name : option string) (iat exp : Z)
  : dict :=
  match name with
  | Some (String _ _ as n) => claims subject iat exp ++ [("name", PStr n)]
  | _ => claims subject iat exp
  end.

(** What the program relies on from PyJWT for a round trip: a token the
    library issued for such a payload decodes to it, under the same key,
    from the issue time on and before the expiry time. *)
Definition round_trips (L : Library) : Prop :=
  forall (subject : string) (name : option string) (iat exp : Z)
         (key token : string) (time : Q),
    jwt_encode L (payload_of subject name iat exp) key "HS256" = Return token ->
    (inject_Z iat <= time)%Q ->
    (time < inject_Z exp)%Q ->
    jwt_decode L time token key ["HS256"]
    = Return (payload_of subject name iat exp).

(** The exception [e] left this run of [create_token] after the events
    [ev] because one of the calls of the run raised it: [int] on the
    prefix, [timedelta] on the integer, the addition to the clock reading,
    [timestamp] on one of the two datetimes, or [jwt.encode] on the
    payload. *)
Definition raised_by_a_call (L : Library) (h : Host) (subject : string)
    (name : option string) (expires_in : string) (secret : option string)
    (ev : list event) (e : exn) : Prop :=
  ((endswith expires_in "h" = true \/ endswith expires_in "d" = true) /\
   py_int (int_max_str_digits h) (drop_last expires_in) = Raise e /\
   ev = []) \/
  (exists n : Z,
      py_int (int_max_str_digits h) (drop_last expires_in) = Return n /\
      ((endswith expires_in "h" = true /\ timedelta_hours n = Raise e) \/
       (endswith expires_in "h" = false /\ endswith expires_in "d" = true /\
        timedelta_days n = Raise e)) /\
      ev = []) \/
  (exists delta : timedelta,
      expires_delta h expires_in = Return delta /\
      datetime_add (now h) delta = Raise e /\
      ev = []) \/
  (exists (delta : timedelta) (expires_at : datetime),
      expires_delta h expires_in = Return delta /\
      datetime_add (now h) delta = Return expires_at /\
      (timestamp h (now h) = Raise e \/
       (exists x1, timestamp h (now h) = Return x1 /\
                   timestamp h expires_at = Raise e)) /\
      ev = []) \/
  (exists (delta : timedelta) (expires_at : datetime) (x1 x2 : Q),
      expires_delta h expires_in = Return delta /\
      datetime_add (now h) delta = Return expires_at /\
      timestamp h (now h) = Return x1 /\
      timestamp h expires_at = Return x2 /\
      jwt_encode L
        (payload_of subject name (int_of_float x1) (int_of_float x2))
        (resolve_secret h secret) "HS256" = Raise e /\
      ev = [Print_payload (claims subject (int_of_float x1) (int_of_float x2));
            Jwt_encode
              (payload_of subject name (int_of_float x1) (int_of_float x2))
              (resolve_secret h secret) "HS256"]).

(** ** Words for the command line and the trace *)

(** The options that store the argument after them. *)
Definition takes_value (o : option_name) : bool :=
  match o with
  | Overify | Ohelp => false
  | _ => true
  end.

(** The two spellings of an option. *)
Definition option_names (o : option_name) : list string :=
  match o with
  | Osubject => ["--subject"; "-s"]
  | Oname => ["--name"; "-n"]
  | Oexpires => ["--expires"; "-e"]
  | Osecret => ["--secret"]
  | Overify => ["--verify"; "-v"]
  | Otoken => ["--token"; "-t"]
  | Ohelp => ["--help"; "-h"]
  end.

(** What has been stored for an option so far. *)
Definition seen_value (o : option_name) (s : seen) : option string :=
  match o with
  | Osubject => seen_subject s
  | Oname => seen_name s
  | Oexpires => seen_expires s
  | Osecret => seen_secret s
  | Otoken => seen_token s
  | Overify | Ohelp => None
  end.

(** The runs of [scan] that give an answer, one rule for each way a step
    of [scan] goes on or stops. *)
Inductive scanned : list string -> seen -> seen + Z -> Prop :=
  | scanned_end (s : seen) :
      scanned [] s (inl s)
  | scanned_help (a : string) (rest : list string) (s : seen) :
      option_of_string a = Some Ohelp ->
      scanned (a :: rest) s (inr 0)
  | scanned_flag (a : string) (rest : list string) (s : seen) (r : seen + Z) :
      option_of_string a = Some Overify ->
      scanned rest (store_true s) r ->
      scanned (a :: rest) s r
  | scanned_store (a v : string) (o : option_name) (rest : list string)
      (s : seen) (r : seen + Z) :
      option_of_string a = Some o ->
      takes_value o = true ->
      starts_with_dash v = false ->
      scanned rest (store o v s) r ->
      scanned (a :: v :: rest) s r
  | scanned_no_value (a : string) (o : option_name) (s : seen) :
      option_of_string a = Some o ->
      takes_value o = true ->
      scanned [a] s (inr 2)
  | scanned_option_for_value (a v : string) (o o' : option_name)
      (rest : list string) (s : seen) :
      option_of_string a = Some o ->
      takes_value o = true ->
      option_of_string v = Some o' ->
      scanned (a :: v :: rest) s (inr 2)
  | scanned_stray (a : string) (rest : list string) (s : seen) (r : seen + Z) :
      option_of_string a = None ->
      starts_with_dash a = false ->
      scanned rest (stray s) r ->
      scanned (a :: rest) s r.

(** A namespace with one argument replaced. *)
Definition with_subject (v : string) (args : Namespace) : Namespace :=
  {| args_subject := v; args_name := args_name args;
     args_expires := args_expires args; args_secret := args_secret args;
     args_verify := args_verify args; args_token := args_token args |}.

Definition with_expires (v : string) (args : Namespace) : Namespace :=
  {| args_subject := args_subject args; args_name := args_name args;
     args_expires := v; args_secret := args_secret args;
     args_verify := args_verify args; args_token := args_token args |}.

Definition with_token (v : string) (args : Namespace) : Namespace :=
  {| args_subject := args_subject args; args_name := args_name args;
     args_expires := args_expires args; args_secret := args_secret args;
     args_verify := args_verify args; args_token := Some v |}.

Definition with_verify (args : Namespace) : Namespace :=
  {| args_subject := args_subject args; args_name := args_name args;
     args_expires := args_expires args; args_secret := args_secret args;
     args_verify := true; args_token := args_token args |}.

(** A host with other environment variables. *)
Definition with_environ (env : gmap string string) (h : Host) : Host :=
  {| environ := env; now := now h; timestamp := timestamp h;
     clock := clock h; int_max_str_digits := int_max_str_digits h |}.

(** The events of issuing and the events of verifying. *)
Definition issue_event (e : event) : bool :=
  match e with
  | Print_payload _ | Jwt_encode _ _ _ => true
  | _ => false
  end.

Definition verify_event (e : event) : bool :=
  match e with
  | Jwt_decode _ _ _ | Print_claim _ _ | Print_error _ => true
  | _ => false
  end.

(** A call into the library that names HMAC-SHA256 and nothing else. *)
Definition hs256_only (e : event) : Prop :=
  match e with
  | Jwt_encode _ _ algorithm => algorithm = "HS256"
  | Jwt_decode _ _ algorithms => algorithms = ["HS256"]
  | _ => True
  end.

(** * Properties *)

(** ** Auxiliary facts *)

Lemma bind_lift_return {A B : Type} (a : A) (k : A -> M B) :
  bind (lift (Return a)) k = k a.
Proof. unfold bind, lift. destruct (k a) as [ev r]. reflexivity. Qed.

Lemma bind_lift_raise {A B : Type} (e : exn) (k : A -> M B) :
  bind (lift (Raise e)) k = ([], Raise e).
Proof. reflexivity. Qed.

Lemma py_or_resolve (h : Host) (secret : option string) :
  py_or secret (environ_get h "JWT_SECRET" fallback_secret)
  = resolve_secret h secret.
Proof.
  unfold py_or, resolve_secret, environ_get.
  destruct secret as [[|a r]|]; simpl; destruct (environ h !! "JWT_SECRET");
    reflexivity.
Qed.

Lemma verify_token_run (L : Library) (h : Host) (token : string)
    (secret : option string) :
  verify_token L h token secret
  = ([Jwt_decode token (resolve_secret h secret) ["HS256"]],
     surfaced (jwt_decode L (clock h) token (resolve_secret h secret)
                 ["HS256"])).
Proof.
  unfold verify_token, call, surfaced. cbv zeta. rewrite py_or_resolve.
  reflexivity.
Qed.

(** When the four computations on dates return, [create_token] prints the
    claims, calls the library once, and ends the way that call ends. *)
Lemma create_token_run (L : Library) (h : Host) (subject : string)
    (name : option string) (expires_in : string) (secret : option string)
    (delta : timedelta) (expires_at : datetime) (x1 x2 : Q) :
  expires_delta h expires_in = Return delta ->
  datetime_add (now h) delta = Return expires_at ->
  timestamp h (now h) = Return x1 ->
  timestamp h expires_at = Return x2 ->
  create_token L h subject name expires_in secret
  = ([Print_payload (claims subject (int_of_float x1) (int_of_float x2));
      Jwt_encode (payload_of subject name (int_of_float x1) (int_of_float x2))
        (resolve_secret h secret) "HS256"],
     jwt_encode L (payload_of subject name (int_of_float x1) (int_of_float x2))
       (resolve_secret h secret) "HS256").
Proof.
  intros Hd Ha H1 H2. unfold create_token. cbv zeta.
  rewrite py_or_resolve, Hd, bind_lift_return, Ha, bind_lift_return.
  rewrite H1. simpl result_map. rewrite bind_lift_return.
  rewrite H2. simpl result_map. rewrite bind_lift_return.
  destruct name as [[|a r]|]; reflexivity.
Qed.

(** Every run of [create_token]: it stops silently at the first of the four
    computations on dates that raises, or runs as above. *)
Lemma create_token_cases (L : Library) (h : Host) (subject : string)
    (name : option string) (expires_in : string) (secret : option string) :
  (exists e,
      create_token L h subject name expires_in secret = ([], Raise e) /\
      (expires_delta h expires_in = Raise e \/
       (exists delta,
           expires_delta h expires_in = Return delta /\
           datetime_add (now h) delta = Raise e) \/
       (exists delta expires_at,
           expires_delta h expires_in = Return delta /\
           datetime_add (now h) delta = Return expires_at /\
           (timestamp h (now h) = Raise e \/
            (exists x1, timestamp h (now h) = Return x1 /\
                        timestamp h expires_at = Raise e))))) \/
  (exists delta expires_at x1 x2,
      expires_delta h expires_in = Return delta /\
      datetime_add (now h) delta = Return expires_at /\
      timestamp h (now h) = Return x1 /\
      timestamp h expires_at = Return x2).
Proof.
  destruct (expires_delta h expires_in) as [delta|e] eqn:Hd.
  - destruct (datetime_add (now h) delta) as [expires_at|e] eqn:Ha.
    + destruct (timestamp h (now h)) as [x1|e] eqn:H1.
      * destruct (timestamp h expires_at) as [x2|e] eqn:H2.
        -- right. exists delta, expires_at, x1, x2. auto.
        -- left. exists e. split; [|right; right; eauto 10].
           unfold create_token. cbv zeta.
           rewrite Hd, bind_lift_return, Ha, bind_lift_return.
           rewrite H1. simpl result_map. rewrite bind_lift_return.
           rewrite H2. reflexivity.
      * left. exists e. split; [|right; right; eauto 10].
        unfold create_token. cbv zeta.
        rewrite Hd, bind_lift_return, Ha, bind_lift_return.
        rewrite H1. reflexivity.
    + left. exists e. split; [|right; left; eauto].
      unfold create_token. cbv zeta.
      rewrite Hd, bind_lift_return, Ha. reflexivity.
  - left. exists e. split; [|left; reflexivity].
    unfold create_token. cbv zeta. rewrite Hd. reflexivity.
Qed.

Lemma endswith_d_not_h (s : string) :
  endswith s "d" = true -> endswith s "h" = false.
Proof.
  unfold endswith. destruct (last_char s) as [a|]; [|discriminate].
  intros Hd. apply Ascii.eqb_eq in Hd. subst a. reflexivity.
Qed.

Lemma py_int_raises (limit : Z) (s : string) (e : exn) :
  py_int limit s = Raise e -> e = invalid_literal.
Proof.
  unfold py_int.
  repeat match goal with
         | |- context [match ?x with _ => _ end] => destruct x
         end; congruence.
Qed.

(** Where an exception of lines 30-35 comes from. *)
Lemma expires_delta_raises (h : Host) (expires_in : string) (e : exn) :
  expires_delta h expires_in = Raise e ->
  ((endswith expires_in "h" = true \/ endswith expires_in "d" = true) /\
   py_int (int_max_str_digits h) (drop_last expires_in) = Raise e) \/
  (exists n : Z,
      py_int (int_max_str_digits h) (drop_last expires_in) = Return n /\
      ((endswith expires_in "h" = true /\ timedelta_hours n = Raise e) \/
       (endswith expires_in "h" = false /\ endswith expires_in "d" = true /\
        timedelta_days n = Raise e))).
Proof.
  unfold expires_delta.
  destruct (endswith expires_in "h") eqn:Hh.
  - destruct (py_int _ _) as [n|e'] eqn:Hn; intros H.
    + right. exists n. auto.
    + left. split; [auto | congruence].
  - destruct (endswith expires_in "d") eqn:Hd.
    + destruct (py_int _ _) as [n|e'] eqn:Hn; intros H.
      * right. exists n. auto.
      * left. split; [auto | congruence].
    + discriminate.
Qed.

(** Every duration the program computes is a whole number of hours. *)
Lemma expires_delta_hours (h : Host) (expires_in : string) (delta : timedelta) :
  expires_delta h expires_in = Return delta ->
  exists n, total_seconds delta = n * 3600.
Proof.
  unfold expires_delta, timedelta_hours, timedelta_days.
  repeat match goal with
         | |- context [match ?x with _ => _ end] => destruct x
         end; intros H; inversion H; subst; simpl.
  - eexists; reflexivity.
  - exists (a * 24). lia.
  - exists 24. reflexivity.
Qed.

Lemma datetime_add_return (dt : datetime) (delta : timedelta) (r : datetime) :
  datetime_add dt delta = Return r ->
  r = Datetime (wall dt + total_seconds delta * 1000000) false.
Proof.
  unfold datetime_add.
  destruct (_ && _); intros H; inversion H. reflexivity.
Qed.

(** ** Duration parsing *)

(** C2, as the code has it.  Line 31 and line 33 hand the integer prefix to
    [timedelta], which takes at most 999999999 days either way: within that
    range a trailing [h] gives the prefix times 3600 seconds and a trailing
    [d] the prefix times 86400 seconds, outside it the parsing ends with
    the [OverflowError] of [timedelta]; every other ending gives 86400
    seconds; ["24h"], ["7d"] and ["30m"] give 86400, 604800 and 86400. *)
Theorem duration_parsing (h : Host) (expires_in : string) :
  (forall n : Z,
      endswith expires_in "h" = true ->
      py_int (int_max_str_digits h) (drop_last expires_in) = Return n ->
      - max_delta_days <= n / 24 <= max_delta_days ->
      expires_delta h expires_in = Return (Timedelta (n * 3600))) /\
  (forall n : Z,
      endswith expires_in "d" = true ->
      py_int (int_max_str_digits h) (drop_last expires_in) = Return n ->
      - max_delta_days <= n <= max_delta_days ->
      expires_delta h expires_in = Return (Timedelta (n * 86400))) /\
  (forall n : Z,
      endswith expires_in "h" = true ->
      py_int (int_max_str_digits h) (drop_last expires_in) = Return n ->
      n / 24 < - max_delta_days \/ max_delta_days < n / 24 ->
      expires_delta h expires_in = Raise OverflowError) /\
  (forall n : Z,
      endswith expires_in "d" = true ->
      py_int (int_max_str_digits h) (drop_last expires_in) = Return n ->
      n < - max_delta_days \/ max_delta_days < n ->
      expires_delta h expires_in = Raise OverflowError) /\
  (endswith expires_in "h" = false ->
   endswith expires_in "d" = false ->
   expires_delta h expires_in = Return (Timedelta 86400)) /\
  expires_delta h "24h" = Return (Timedelta 86400) /\
  expires_delta h "7d" = Return (Timedelta 604800) /\
  expires_delta h "30m" = Return (Timedelta 86400).
Proof.
  repeat split.
  - intros n Hh Hn [Hlo Hhi]. unfold expires_delta, timedelta_hours.
    rewrite Hh, Hn.
    apply Z.leb_le in Hlo. apply Z.leb_le in Hhi. rewrite Hlo, Hhi.
    reflexivity.
  - intros n Hd Hn [Hlo Hhi]. unfold expires_delta, timedelta_days.
    rewrite (endswith_d_not_h _ Hd), Hd, Hn.
    apply Z.leb_le in Hlo. apply Z.leb_le in Hhi. rewrite Hlo, Hhi.
    reflexivity.
  - intros n Hh Hn Hout. unfold expires_delta, timedelta_hours.
    rewrite Hh, Hn.
    destruct (_ && _) eqn:Hb; [|reflexivity].
    apply andb_true_iff in Hb as [Hlo Hhi].
    apply Z.leb_le in Hlo. apply Z.leb_le in Hhi. lia.
  - intros n Hd Hn Hout. unfold expires_delta, timedelta_days.
    rewrite (endswith_d_not_h _ Hd), Hd, Hn.
    destruct (_ && _) eqn:Hb; [|reflexivity].
    apply andb_true_iff in Hb as [Hlo Hhi].
    apply Z.leb_le in Hlo. apply Z.leb_le in Hhi. lia.
  - intros Hh Hd. unfold expires_delta. rewrite Hh, Hd. reflexivity.
Qed.

Lemma duration_parsing_witness :
  endswith "7d" "d" = true /\
  py_int 4300 "7" = Return 7 /\
  - max_delta_days <= 7 <= max_delta_days /\
  expires_delta (Reference.utc_host 0) "7d" = Return (Timedelta (7 * 86400)).
Proof.
  assert (Hr : - max_delta_days <= 7 <= max_delta_days)
    by (unfold max_delta_days; lia).
  split; [reflexivity|]. split; [reflexivity|]. split; [exact Hr|].
  apply (proj1 (proj2 (duration_parsing (Reference.utc_host 0) "7d")) 7);
    [reflexivity | reflexivity | exact Hr].
Defined.

(** C2 as the specification words it fails on a prefix too large for
    [timedelta]: ["24000000000h"] has the integer prefix 24000000000, and
    the parsing raises [OverflowError] instead of yielding a duration. *)
Lemma duration_out_of_range :
  endswith "24000000000h" "h" = true /\
  py_int 4300 (drop_last "24000000000h") = Return 24000000000 /\
  expires_delta (Reference.utc_host 0) "24000000000h" = Raise OverflowError.
Proof. repeat split; reflexivity. Qed.

(** ** Issued and expiry times *)

(** C5, as the code has it.  Where [timestamp()] takes the issue time and
    the expiry time for readings of one UTC offset, a call that returns
    has [exp] after [iat] when the parsed duration is positive (the 24-hour
    default, or an integer prefix of at least 1) and [exp] before [iat]
    when it is negative; when it is zero [exp] equals [iat], provided the
    clock reading has [fold] 0, that is, the issue time is not the second
    pass through a repeated hour. *)
Theorem expiry_after_issue (L : Library) (h : Host) (subject : string)
    (name : option string) (expires_in : string) (secret : option string)
    (delta : timedelta) (offset : Z) (ev : list event) (token : string) :
  create_token L h subject name expires_in secret = (ev, Return token) ->
  expires_delta h expires_in = Return delta ->
  reads_offset h offset (now h) ->
  reads_offset h offset
    (Datetime (wall (now h) + total_seconds delta * 1000000) false) ->
  exists iat exp : Z,
    ev = [Print_payload (claims subject iat exp);
          Jwt_encode (payload_of subject name iat exp)
            (resolve_secret h secret) "HS256"] /\
    (0 < total_seconds delta -> iat < exp) /\
    (total_seconds delta < 0 -> exp < iat) /\
    (total_seconds delta = 0 -> fold (now h) = false -> exp = iat).
Proof.
  intros Hc Hd (x1 & Ht1 & B1) (x2 & Ht2 & B2).
  destruct (create_token_cases L h subject name expires_in secret)
    as [(e & He & _) | (delta' & ea & y1 & y2 & Hd' & Ha & H1 & H2)].
  - rewrite He in Hc. discriminate.
  - rewrite Hd in Hd'. injection Hd' as <-.
    pose proof (datetime_add_return _ _ _ Ha) as ->.
    rewrite (create_token_run L h subject name expires_in secret
               _ _ _ _ Hd Ha Ht1 Ht2) in Hc.
    injection Hc as <- _.
    exists (int_of_float x1), (int_of_float x2).
    split; [reflexivity|].
    destruct (expires_delta_hours _ _ _ Hd) as [n Hn].
    simpl wall in B2.
    repeat split.
    + intros Hpos. lia.
    + intros Hneg. lia.
    + intros Hzero Hfold. clear B1 B2. rewrite Hzero in Ht2.
      destruct (now h) as [w f]. simpl in Hfold, Ht2. subst f.
      rewrite Z.add_0_r in Ht2. congruence.
Qed.

Lemma expiry_after_issue_witness :
  exists token,
    create_token Reference.pyjwt (Reference.utc_host 0) "u" None "1h" None
    = ([Print_payload (claims "u" 1772884800 1772888400);
        Jwt_encode (claims "u" 1772884800 1772888400) fallback_secret "HS256"],
       Return token) /\
    exists iat exp : Z,
      [Print_payload (claims "u" 1772884800 1772888400);
       Jwt_encode (claims "u" 1772884800 1772888400) fallback_secret "HS256"]
      = [Print_payload (claims "u" iat exp);
         Jwt_encode (payload_of "u" None iat exp)
           (resolve_secret (Reference.utc_host 0) None) "HS256"] /\
      (0 < 3600 -> iat < exp) /\
      (3600 < 0 -> exp < iat) /\
      (3600 = 0 -> false = false -> exp = iat).
Proof.
  eexists. split; [reflexivity|].
  apply (expiry_after_issue Reference.pyjwt (Reference.utc_host 0)
           "u" None "1h" None (Timedelta 3600) 0 _ _ eq_refl eq_refl).
  - eexists. split; [reflexivity|]. vm_compute. split; discriminate.
  - eexists. split; [reflexivity|]. vm_compute. split; discriminate.
Defined.

(** C5 as the specification words it fails for a zero duration: with
    ["0h"] the call returns and [exp] equals [iat].  And without one UTC
    offset for both times a positive duration does not help: at Troll
    station on 2026-10-25, at 01:30 for the second time, ["1h"] gives an
    expiry that [timestamp()] reads in the first pass, an hour before the
    issue time. *)
Lemma expiry_not_after_issue :
  (exists (token : string) (payload : dict),
      create_token Reference.pyjwt (Reference.utc_host 0) "u" None "0h" None
      = ([Print_payload payload; Jwt_encode payload fallback_secret "HS256"],
         Return token) /\
      dict_get payload "iat" = Some (PInt 1772884800) /\
      dict_get payload "exp" = Some (PInt 1772884800)) /\
  (exists (token : string) (payload : dict),
      expires_delta (Reference.troll_host 0) "1h" = Return (Timedelta 3600) /\
      create_token Reference.pyjwt (Reference.troll_host 0) "u" None "1h" None
      = ([Print_payload payload; Jwt_encode payload fallback_secret "HS256"],
         Return token) /\
      dict_get payload "iat" = Some (PInt 1792891800) /\
      dict_get payload "exp" = Some (PInt 1792888200)).
Proof.
  split.
  - exists (Reference.ser_token fallback_secret
              (claims "u" 1772884800 1772884800)),
           (claims "u" 1772884800 1772884800).
    vm_compute. repeat split; reflexivity.
  - exists (Reference.ser_token fallback_secret
              (claims "u" 1792891800 1792888200)),
           (claims "u" 1792891800 1792888200).
    vm_compute. repeat split; reflexivity.
Qed.

(** ** Errors of [create_token] *)

(** C8.  When the duration ends in [h] or [d] and [int] refuses the prefix,
    the [ValueError] of [int] leaves [create_token] as it is, before
    anything is printed.  Whatever exception leaves [create_token] was
    raised by one of the calls of that run.  And when every call of the
    run returns, [create_token] returns the token of [jwt.encode]: it
    raises nothing of its own. *)
Theorem create_token_errors (L : Library) (h : Host) (subject : string)
    (name : option string) (expires_in : string) (secret : option string) :
  (forall e : exn,
      endswith expires_in "h" = true \/ endswith expires_in "d" = true ->
      py_int (int_max_str_digits h) (drop_last expires_in) = Raise e ->
      create_token L h subject name expires_in secret = ([], Raise e) /\
      isinstance e "ValueError" = true) /\
  (forall (ev : list event) (e : exn),
      create_token L h subject name expires_in secret = (ev, Raise e) ->
      raised_by_a_call L h subject name expires_in secret ev e) /\
  (forall (delta : timedelta) (expires_at : datetime) (x1 x2 : Q)
          (token : string),
      expires_delta h expires_in = Return delta ->
      datetime_add (now h) delta = Return expires_at ->
      timestamp h (now h) = Return x1 ->
      timestamp h expires_at = Return x2 ->
      jwt_encode L
        (payload_of subject name (int_of_float x1) (int_of_float x2))
        (resolve_secret h secret) "HS256" = Return token ->
      snd (create_token L h subject name expires_in secret) = Return token).
Proof.
  split; [|split].
  - intros e Hs Hn. split.
    + unfold create_token. cbv zeta.
      replace (expires_delta h expires_in) with (@Raise timedelta e);
        [reflexivity|].
      unfold expires_delta. destruct Hs as [Hh | Hd].
      * rewrite Hh, Hn. reflexivity.
      * rewrite (endswith_d_not_h _ Hd), Hd, Hn. reflexivity.
    + rewrite (py_int_raises _ _ _ Hn). reflexivity.
  - intros ev e Hc. unfold raised_by_a_call.
    destruct (create_token_cases L h subject name expires_in secret)
      as [(e' & He & Hwhere) | (delta & ea & x1 & x2 & Hd & Ha & H1 & H2)].
    + rewrite He in Hc. injection Hc as <- <-.
      destruct Hwhere as [Hd | [(delta & Hd & Ha)
                               | (delta & ea & Hd & Ha & Ht)]].
      * destruct (expires_delta_raises _ _ _ Hd) as [[Hs Hi] | (n & Hn & Ho)].
        -- left. auto.
        -- right. left. exists n. auto.
      * do 2 right. left. exists delta. auto.
      * do 3 right. left. exists delta, ea. auto.
    + rewrite (create_token_run L h subject name expires_in secret
                 _ _ _ _ Hd Ha H1 H2) in Hc.
      injection Hc as <- Hr. do 4 right.
      exists delta, ea, x1, x2. auto 10.
  - intros delta ea x1 x2 token Hd Ha H1 H2 Henc.
    rewrite (create_token_run L h subject name expires_in secret
               _ _ _ _ Hd Ha H1 H2).
    exact Henc.
Qed.

Lemma create_token_errors_witness :
  (endswith "xh" "h" = true \/ endswith "xh" "d" = true) /\
  py_int 4300 (drop_last "xh") = Raise invalid_literal /\
  create_token Reference.pyjwt (Reference.utc_host 0) "u" None "xh" None
  = ([], Raise invalid_literal) /\
  isinstance invalid_literal "ValueError" = true.
Proof.
  split; [left; reflexivity|]. split; [reflexivity|].
  apply (proj1 (create_token_errors Reference.pyjwt (Reference.utc_host 0)
                  "u" None "xh" None) invalid_literal);
    [left; reflexivity | reflexivity].
Defined.

(** ** The claims handed to the library *)

(** C9, as the code has it.  Line 49 tests the truth value of [name]: a
    non-empty name is appended to the claims as [name]; without a name, or
    with an empty one, the payload is exactly [sub], [iat], [exp]. *)
Theorem name_claim (L : Library) (h : Host) (subject : string)
    (name : option string) (expires_in : string) (secret : option string)
    (delta : timedelta) (expires_at : datetime) (x1 x2 : Q) :
  expires_delta h expires_in = Return delta ->
  datetime_add (now h) delta = Return expires_at ->
  timestamp h (now h) = Return x1 ->
  timestamp h expires_at = Return x2 ->
  exists payload : dict,
    create_token L h subject name expires_in secret
    = ([Print_payload (claims subject (int_of_float x1) (int_of_float x2));
        Jwt_encode payload (resolve_secret h secret) "HS256"],
       jwt_encode L payload (resolve_secret h secret) "HS256") /\
    match name with
    | Some n =>
        if String.eqb n "" then dict_keys payload = ["sub"; "iat"; "exp"]
        else dict_keys payload = ["sub"; "iat"; "exp"; "name"] /\
             dict_get payload "name" = Some (PStr n)
    | None => dict_keys payload = ["sub"; "iat"; "exp"]
    end.
Proof.
  intros Hd Ha H1 H2.
  exists (payload_of subject name (int_of_float x1) (int_of_float x2)).
  split.
  - apply (create_token_run L h subject name expires_in secret
             _ _ _ _ Hd Ha H1 H2).
  - destruct name as [[|a r]|]; simpl; auto.
Qed.

Lemma name_claim_witness :
  exists payload : dict,
    create_token Reference.pyjwt (Reference.utc_host 0) "u" (Some "Ann")
      "24h" None
    = ([Print_payload (claims "u" 1772884800 1772971200);
        Jwt_encode payload fallback_secret "HS256"],
       Reference.encode payload fallback_secret "HS256") /\
    dict_keys payload = ["sub"; "iat"; "exp"; "name"] /\
    dict_get payload "name" = Some (PStr "Ann").
Proof.
  exact (name_claim Reference.pyjwt (Reference.utc_host 0) "u" (Some "Ann")
           "24h" None (Timedelta 86400) (Datetime 1772971200000000 false)
           (Reference.double_timestamp 1772884800 0)
           (Reference.double_timestamp 1772971200 0)
           eq_refl eq_refl eq_refl eq_refl).
Defined.

(** C9 as the specification words it fails for a name that is given but
    empty: [create_token("u", name="")] encodes no [name] claim. *)
Lemma empty_name_is_dropped :
  exists (payload : dict) (r : result string),
    create_token Reference.pyjwt (Reference.utc_host 0) "u" (Some "")
      "24h" None
    = ([Print_payload payload; Jwt_encode payload fallback_secret "HS256"], r)
    /\ dict_get payload "name" = None.
Proof.
  exists (claims "u" 1772884800 1772971200),
         (Reference.encode (claims "u" 1772884800 1772971200)
            fallback_secret "HS256").
  vm_compute. split; reflexivity.
Qed.

(** ** The secret *)

(** C6.  Both operations resolve the secret in the same three tiers and
    work with the result: the argument when it is not empty, else
    [JWT_SECRET] when it is set, else the literal.  [create_token], once
    the dates are computed, calls [jwt.encode] with that key and ends the
    way that call ends; [verify_token] calls [jwt.decode] with that key
    and ends with what lines 70-74 make of its answer. *)
Theorem secret_resolution (L : Library) (h : Host) (subject : string)
    (name : option string) (expires_in : string) (secret : option string)
    (token : string) :
  exists key : string,
    (forall s, secret = Some s -> s <> "" -> key = s) /\
    (truthy secret = false ->
     forall v, environ h !! "JWT_SECRET" = Some v -> key = v) /\
    (truthy secret = false ->
     environ h !! "JWT_SECRET" = None -> key = fallback_secret) /\
    (forall (delta : timedelta) (expires_at : datetime) (x1 x2 : Q),
        expires_delta h expires_in = Return delta ->
        datetime_add (now h) delta = Return expires_at ->
        timestamp h (now h) = Return x1 ->
        timestamp h expires_at = Return x2 ->
        create_token L h subject name expires_in secret
        = ([Print_payload
              (claims subject (int_of_float x1) (int_of_float x2));
            Jwt_encode
              (payload_of subject name (int_of_float x1) (int_of_float x2))
              key "HS256"],
           jwt_encode L
             (payload_of subject name (int_of_float x1) (int_of_float x2))
             key "HS256")) /\
    verify_token L h token secret
    = ([Jwt_decode token key ["HS256"]],
       surfaced (jwt_decode L (clock h) token key ["HS256"])).
Proof.
  exists (resolve_secret h secret).
  split; [|split; [|split; [|split]]].
  - intros s -> Hs. unfold resolve_secret.
    destruct s; [contradiction | reflexivity].
  - intros Hf v Hv. unfold resolve_secret.
    destruct secret as [[|a r]|]; try discriminate; simpl; rewrite Hv;
      reflexivity.
  - intros Hf Hv. unfold resolve_secret.
    destruct secret as [[|a r]|]; try discriminate; simpl; rewrite Hv;
      reflexivity.
  - intros delta ea x1 x2. apply create_token_run.
  - apply verify_token_run.
Qed.

Lemma secret_resolution_witness :
  exists key : string,
    key = "k" /\
    create_token Reference.pyjwt (Reference.utc_host 0) "u" None "24h"
      (Some "k")
    = ([Print_payload (claims "u" 1772884800 1772971200);
        Jwt_encode (claims "u" 1772884800 1772971200) key "HS256"],
       Reference.encode (claims "u" 1772884800 1772971200) key "HS256").
Proof.
  destruct (secret_resolution Reference.pyjwt (Reference.utc_host 0) "u" None
              "24h" (Some "k") "abc")
    as (key & Harg & _ & _ & Hcreate & _).
  exists key. split.
  - apply Harg; [reflexivity | discriminate].
  - exact (Hcreate (Timedelta 86400) (Datetime 1772971200000000 false)
             (Reference.double_timestamp 1772884800 0)
             (Reference.double_timestamp 1772971200 0)
             eq_refl eq_refl eq_refl eq_refl).
Defined.

(** C10.  An empty secret argument is the same as none, in both
    operations: [create_token] then calls [jwt.encode], and [verify_token]
    calls [jwt.decode], with [JWT_SECRET] when it is set and with the
    literal when it is not. *)
Theorem empty_secret_is_absent (L : Library) (h : Host) (subject : string)
    (name : option string) (expires_in token : string) :
  exists key : string,
    (forall v, environ h !! "JWT_SECRET" = Some v -> key = v) /\
    (environ h !! "JWT_SECRET" = None -> key = fallback_secret) /\
    (forall (delta : timedelta) (expires_at : datetime) (x1 x2 : Q),
        expires_delta h expires_in = Return delta ->
        datetime_add (now h) delta = Return expires_at ->
        timestamp h (now h) = Return x1 ->
        timestamp h expires_at = Return x2 ->
        create_token L h subject name expires_in (Some "")
        = ([Print_payload
              (claims subject (int_of_float x1) (int_of_float x2));
            Jwt_encode
              (payload_of subject name (int_of_float x1) (int_of_float x2))
              key "HS256"],
           jwt_encode L
             (payload_of subject name (int_of_float x1) (int_of_float x2))
             key "HS256")) /\
    verify_token L h token (Some "")
    = ([Jwt_decode token key ["HS256"]],
       surfaced (jwt_decode L (clock h) token key ["HS256"])) /\
    create_token L h subject name expires_in (Some "")
    = create_token L h subject name expires_in None /\
    verify_token L h token (Some "") = verify_token L h token None.
Proof.
  exists (resolve_secret h (Some "")).
  split; [|split; [|split; [|split; [|split]]]].
  - intros v Hv. simpl. rewrite Hv. reflexivity.
  - intros Hv. simpl. rewrite Hv. reflexivity.
  - intros delta ea x1 x2. apply create_token_run.
  - apply verify_token_run.
  - reflexivity.
  - reflexivity.
Qed.

Lemma empty_secret_is_absent_witness :
  exists key : string,
    key = fallback_secret /\
    create_token Reference.pyjwt (Reference.utc_host 0) "u" None "24h"
      (Some "")
    = ([Print_payload (claims "u" 1772884800 1772971200);
        Jwt_encode (claims "u" 1772884800 1772971200) key "HS256"],
       Reference.encode (claims "u" 1772884800 1772971200) key "HS256").
Proof.
  destruct (empty_secret_is_absent Reference.pyjwt (Reference.utc_host 0)
              "u" None "24h" "abc")
    as (key & _ & Hunset & Hcreate & _).
  exists key. split.
  - apply Hunset. reflexivity.
  - exact (Hcreate (Timedelta 86400) (Datetime 1772971200000000 false)
             (Reference.double_timestamp 1772884800 0)
             (Reference.double_timestamp 1772971200 0)
             eq_refl eq_refl eq_refl eq_refl).
Defined.

(** ** Failures of [verify_token] *)

(** C3, as the code has it.  [verify_token] calls [jwt.decode] once, with
    the resolved key.  A payload comes back as it is.  An
    [ExpiredSignatureError] leaves [verify_token] as
    [ValueError("Token has expired")], any other [InvalidTokenError] as
    [ValueError("Invalid token")].  An exception of [jwt.decode] that is
    neither leaves [verify_token] unchanged.  Those are the only three
    ways [verify_token] raises. *)
Theorem verify_token_failures (L : Library) (h : Host) (token : string)
    (secret : option string) :
  let called := Jwt_decode token (resolve_secret h secret) ["HS256"] in
  let decoded :=
    jwt_decode L (clock h) token (resolve_secret h secret) ["HS256"] in
  (forall payload : dict,
      decoded = Return payload ->
      verify_token L h token secret = ([called], Return payload)) /\
  (forall e : exn,
      decoded = Raise e ->
      isinstance e "jwt.ExpiredSignatureError" = true ->
      verify_token L h token secret
      = ([called], Raise (ValueError (Some "Token has expired")))) /\
  (forall e : exn,
      decoded = Raise e ->
      isinstance e "jwt.ExpiredSignatureError" = false ->
      isinstance e "jwt.InvalidTokenError" = true ->
      verify_token L h token secret
      = ([called], Raise (ValueError (Some "Invalid token")))) /\
  (forall e : exn,
      decoded = Raise e ->
      isinstance e "jwt.ExpiredSignatureError" = false ->
      isinstance e "jwt.InvalidTokenError" = false ->
      verify_token L h token secret = ([called], Raise e)) /\
  (forall e : exn,
      snd (verify_token L h token secret) = Raise e ->
      e = ValueError (Some "Token has expired") \/
      e = ValueError (Some "Invalid token") \/
      (decoded = Raise e /\
       isinstance e "jwt.ExpiredSignatureError" = false /\
       isinstance e "jwt.InvalidTokenError" = false)).
Proof.
  cbv zeta. rewrite verify_token_run. unfold surfaced.
  destruct (jwt_decode L (clock h) token (resolve_secret h secret) ["HS256"])
    as [payload | e0] eqn:Hdec.
  - repeat split; intros e; try discriminate.
    intros [= <-]. reflexivity.
  - repeat split.
    + intros payload. discriminate.
    + intros e [= <-] He. rewrite He. reflexivity.
    + intros e [= <-] He Hi. rewrite He, Hi. reflexivity.
    + intros e [= <-] He Hi. rewrite He, Hi. reflexivity.
    + intros e. simpl.
      destruct (isinstance e0 "jwt.ExpiredSignatureError") eqn:He.
      * intros [= <-]. auto.
      * destruct (isinstance e0 "jwt.InvalidTokenError") eqn:Hi.
        -- intros [= <-]. auto.
        -- intros [= <-]. auto.
Qed.

Lemma verify_token_failures_witness :
  Reference.decode 0 "abc" fallback_secret ["HS256"]
  = Raise Reference.DecodeError /\
  isinstance Reference.DecodeError "jwt.ExpiredSignatureError" = false /\
  isinstance Reference.DecodeError "jwt.InvalidTokenError" = true /\
  verify_token Reference.pyjwt (Reference.utc_host 0) "abc" None
  = ([Jwt_decode "abc" fallback_secret ["HS256"]],
     Raise (ValueError (Some "Invalid token"))).
Proof.
  split; [reflexivity|]. split; [reflexivity|]. split; [reflexivity|].
  apply (proj1 (proj2 (proj2 (verify_token_failures Reference.pyjwt
                                (Reference.utc_host 0) "abc" None)))
           Reference.DecodeError); reflexivity.
Defined.

(** C3 as the specification words it fails: an exception of [jwt.decode]
    outside the [InvalidTokenError] family is not caught.  PyJWT raises
    such a one, [InvalidKeyError], when the secret is an SSH public key;
    it leaves [verify_token] as it is, and it is not a [ValueError]. *)
Lemma invalid_key_error_escapes :
  exists token : string,
    snd (create_token Reference.pyjwt (Reference.utc_host 0) "u" None "24h"
           (Some "k")) = Return token /\
    snd (verify_token Reference.pyjwt (Reference.utc_host (1772884801 # 1))
           token (Some "ssh-rsa AAAAB3NzaC1yc2E"))
    = Raise Reference.InvalidKeyError /\
    isinstance Reference.InvalidKeyError "ValueError" = false.
Proof.
  exists (Reference.ser_token "k" (claims "u" 1772884800 1772971200)).
  vm_compute. repeat split; reflexivity.
Qed.

(** ** The reference library round-trips *)

Lemma parse_fields_field (f rest : string) (cur : string -> string) :
  Reference.parse_fields (String.append (Reference.ser_field f) rest) cur
  = match Reference.parse_fields rest (fun t => t) with
    | Some fs => Some (cur f :: fs)
    | None => None
    end.
Proof.
  revert cur. induction f as [|c r IH]; intros cur.
  - reflexivity.
  - simpl. rewrite IH. reflexivity.
Qed.

Lemma parse_ser_fields (fs : list string) :
  Reference.parse_fields (Reference.ser_fields fs) (fun t => t) = Some fs.
Proof.
  induction fs as [|f r IH].
  - reflexivity.
  - simpl. rewrite parse_fields_field, IH. reflexivity.
Qed.

Lemma bits_pos_bits (p : positive) :
  Reference.bits_pos (Reference.pos_bits p) = Some p.
Proof. induction p as [q IH | q IH |]; simpl; rewrite ?IH; reflexivity. Qed.

Lemma parse_ser_value (v : pyval) :
  Reference.parse_value (Reference.ser_value v) = Some v.
Proof.
  destruct v as [s | [|p|p] | s]; simpl; rewrite ?bits_pos_bits; reflexivity.
Qed.

Lemma fields_dict_fields (d : dict) :
  Reference.fields_dict (Reference.dict_fields d) = Some d.
Proof.
  induction d as [|[k v] r IH].
  - reflexivity.
  - simpl. rewrite parse_ser_value, IH. reflexivity.
Qed.

Lemma parse_ser_token (key : string) (payload : dict) :
  Reference.parse_token (Reference.ser_token key payload)
  = Some (key, payload).
Proof.
  unfold Reference.parse_token, Reference.ser_token.
  rewrite parse_ser_fields, fields_dict_fields. reflexivity.
Qed.

Lemma decode_encode (payload : dict) (key token : string) (time : Q)
    (iat exp : Z) :
  Reference.encode payload key "HS256" = Return token ->
  dict_get payload "iat" = Some (PInt iat) ->
  dict_get payload "exp" = Some (PInt exp) ->
  (inject_Z iat <= time)%Q ->
  (time < inject_Z exp)%Q ->
  Reference.decode time token key ["HS256"] = Return payload.
Proof.
  intros Henc Hi He Hle Hlt.
  unfold Reference.encode in Henc. simpl in Henc.
  destruct (Reference.is_pem key) eqn:Hpem; [discriminate|].
  injection Henc as <-.
  unfold Reference.decode. rewrite parse_ser_token. simpl.
  rewrite Hpem, String.eqb_refl. simpl.
  unfold Reference.claim_int. rewrite Hi, He.
  apply Qle_bool_iff in Hle. rewrite Hle. simpl.
  destruct (Qle_bool (inject_Z exp) time) eqn:Hexp; [|reflexivity].
  apply Qle_bool_iff in Hexp. exfalso. exact (Qlt_not_le _ _ Hlt Hexp).
Qed.

Lemma pyjwt_round_trips : round_trips Reference.pyjwt.
Proof.
  intros subject name iat exp key token time Henc Hle Hlt.
  apply (decode_encode _ _ _ _ iat exp Henc); try assumption;
    destruct name as [[|c r]|]; reflexivity.
Qed.

(** ** Round trip *)

(** C1 fails on the code.  Lines 38-45 add the duration to a naive local
    datetime and convert both datetimes with [timestamp()], so [exp - iat]
    is not always the duration.  In New York, issued at noon on 2026-03-07
    for ["24h"], the token verifies a second later and [exp - iat] is
    82800 seconds, an hour short, because the clocks go forward in
    between.  On UTC, issued 999999 microseconds after noon for
    ["200000d"], the double of the expiry time rounds up to the next
    second and [exp - iat] is one second more than 200000 days. *)
Theorem expiry_misses_the_duration :
  (exists (token : string) (payload : dict),
      endswith "24h" "h" = true /\
      py_int 4300 (drop_last "24h") = Return 24 /\
      snd (create_token Reference.pyjwt (Reference.new_york_host 0) "u" None
             "24h" (Some "k")) = Return token /\
      snd (verify_token Reference.pyjwt
             (Reference.new_york_host (1772902801 # 1)) token (Some "k"))
      = Return payload /\
      dict_get payload "sub" = Some (PStr "u") /\
      dict_get payload "iat" = Some (PInt 1772902800) /\
      dict_get payload "exp" = Some (PInt 1772985600) /\
      1772985600 - 1772902800 = 24 * 3600 - 3600) /\
  (exists (token : string) (payload : dict),
      endswith "200000d" "d" = true /\
      py_int 4300 (drop_last "200000d") = Return 200000 /\
      snd (create_token Reference.pyjwt
             (Reference.utc_host_at
                (Datetime (Reference.noon + 999999) false) 0)
             "u" None "200000d" (Some "k")) = Return token /\
      snd (verify_token Reference.pyjwt
             (Reference.utc_host_at
                (Datetime (Reference.noon + 999999) false) (1772884801 # 1))
             token (Some "k"))
      = Return payload /\
      dict_get payload "sub" = Some (PStr "u") /\
      dict_get payload "iat" = Some (PInt 1772884800) /\
      dict_get payload "exp" = Some (PInt 19052884801) /\
      19052884801 - 1772884800 = 200000 * 86400 + 1).
Proof.
  split.
  - exists (Reference.ser_token "k" (claims "u" 1772902800 1772985600)),
           (claims "u" 1772902800 1772985600).
    vm_compute. repeat split; reflexivity.
  - exists (Reference.ser_token "k" (claims "u" 1772884800 19052884801)),
           (claims "u" 1772884800 19052884801).
    vm_compute. repeat split; reflexivity.
Qed.

(** ** The command line *)

(** C4, as the code has it.  Once the arguments are parsed, the exit status
    is 1 in three cases: verify mode without a token (or with an empty
    one); an exception leaving [create_token] in issue mode, which nothing
    catches; an exception other than [ValueError] leaving [verify_token].
    It is 0 in every other case; in particular a [ValueError] of
    [verify_token] is printed as an error line and the status is 0. *)
Theorem exit_status (L : Library) (h : Host) (args : Namespace) :
  (snd (dispatch L h args) = 1 <->
     (args_verify args = true /\ truthy (args_token args) = false) \/
     (args_verify args = true /\
      exists token ev e,
        args_token args = Some token /\ token <> "" /\
        verify_token L h token (args_secret args) = (ev, Raise e) /\
        isinstance e "ValueError" = false) \/
     (args_verify args = false /\
      exists ev e,
        create_token L h (args_subject args) (args_name args)
          (args_expires args) (args_secret args) = (ev, Raise e))) /\
  (snd (dispatch L h args) <> 1 -> snd (dispatch L h args) = 0) /\
  (forall token ev e,
      args_verify args = true ->
      args_token args = Some token ->
      token <> "" ->
      verify_token L h token (args_secret args) = (ev, Raise e) ->
      isinstance e "ValueError" = true ->
      dispatch L h args = (ev ++ [Print_error e], 0)).
Proof.
  unfold dispatch.
  destruct (args_verify args).
  - destruct (args_token args) as [[|c r]|].
    + simpl. split; [|split].
      * split; [intros _; left; split; reflexivity | reflexivity].
      * intros H. exfalso. apply H. reflexivity.
      * intros token ev e _ [= <-] Hne. exfalso. apply Hne. reflexivity.
    + destruct (verify_token L h (String c r) (args_secret args))
        as [ev [payload | e]] eqn:Hv.
      * simpl. split; [|split].
        -- split; [discriminate|].
           intros [[_ Hf] | [(_ & token & ev' & e' & Ht & _ & He & _)
                            | [Hf _]]]; try discriminate.
           injection Ht as <-. rewrite Hv in He. discriminate.
        -- reflexivity.
        -- intros token ev' e' _ [= <-] _ He _. rewrite Hv in He.
           discriminate.
      * destruct (isinstance e "ValueError") eqn:Hi; simpl; (split; [|split]).
        -- split; [discriminate|].
           intros [[_ Hf] | [(_ & token & ev' & e' & Ht & _ & He & Hi')
                            | [Hf _]]]; try discriminate.
           injection Ht as <-. rewrite Hv in He. injection He as <- <-.
           congruence.
        -- reflexivity.
        -- intros token ev' e' _ [= <-] _ He _. rewrite Hv in He.
           injection He as <- <-. reflexivity.
        -- split; [|reflexivity].
           intros _. right. left. split; [reflexivity|].
           exists (String c r), ev, e. repeat split; auto; discriminate.
        -- intros H. exfalso. apply H. reflexivity.
        -- intros token ev' e' _ [= <-] _ He Hi'. rewrite Hv in He.
           injection He as <- <-. congruence.
    + simpl. split; [|split].
      * split; [intros _; left; split; reflexivity | reflexivity].
      * intros H. exfalso. apply H. reflexivity.
      * intros token ev e _ Hf. discriminate.
  - destruct (create_token L h (args_subject args) (args_name args)
                (args_expires args) (args_secret args))
      as [ev [token | e]] eqn:Hc; simpl; (split; [|split]).
    + split; [discriminate|].
      intros [[Hf _] | [[Hf _] | (_ & ev' & e' & He)]]; discriminate.
    + reflexivity.
    + discriminate.
    + split; [|reflexivity].
      intros _. right. right. split; [reflexivity|]. eauto.
    + intros H. exfalso. apply H. reflexivity.
    + discriminate.
Qed.

Lemma exit_status_witness :
  verify_token Reference.pyjwt (Reference.utc_host 0) "abc" None
  = ([Jwt_decode "abc" fallback_secret ["HS256"]],
     Raise (ValueError (Some "Invalid token"))) /\
  isinstance (ValueError (Some "Invalid token")) "ValueError" = true /\
  dispatch Reference.pyjwt (Reference.utc_host 0)
    {| args_subject := "u"; args_name := None; args_expires := "24h";
       args_secret := None; args_verify := true; args_token := Some "abc" |}
  = ([Jwt_decode "abc" fallback_secret ["HS256"]] ++
     [Print_error (ValueError (Some "Invalid token"))], 0).
Proof.
  split; [reflexivity|]. split; [reflexivity|].
  apply (proj2 (proj2 (exit_status Reference.pyjwt (Reference.utc_host 0)
           {| args_subject := "u"; args_name := None; args_expires := "24h";
              args_secret := None; args_verify := true;
              args_token := Some "abc" |})) "abc");
    [reflexivity | reflexivity | discriminate | reflexivity | reflexivity].
Defined.

(** C4 as the specification words it fails in issue mode: with the
    duration ["xh"] the [ValueError] of [int] leaves [create_token], nothing
    catches it, and the process ends with status 1 although verify mode
    was not selected. *)
Lemma bad_duration_exits_with_1 :
  exists args : Namespace,
    parse_args ["-s"; "u"; "-e"; "xh"] = Some (Parsed args) /\
    args_verify args = false /\
    main Reference.pyjwt (Reference.utc_host 0) ["-s"; "u"; "-e"; "xh"]
    = Some ([], 1).
Proof. eexists. repeat split; reflexivity. Qed.

(** C7 fails on the code.  [--subject] is declared with [required=True]
    for both modes, so verify mode with a token and no subject ends in
    argparse with status 2 and nothing is decoded; with a subject, which
    verify mode never reads, the same command line reaches [jwt.decode]. *)
Theorem verify_mode_demands_subject (L : Library) (h : Host) :
  main L h ["--verify"; "--token"; "abc"] = Some ([], 2) /\
  main L h ["-v"; "-t"; "abc"] = Some ([], 2) /\
  exists (rest : list event) (status : Z),
    main L h ["--subject"; "u"; "--verify"; "--token"; "abc"]
    = Some (Jwt_decode "abc" (resolve_secret h None) ["HS256"] :: rest,
            status).
Proof.
  split; [reflexivity|]. split; [reflexivity|].
  assert (Hp : parse_args ["--subject"; "u"; "--verify"; "--token"; "abc"]
               = Some (Parsed {|
                   args_subject := "u"; args_name := None;
                   args_expires := "24h"; args_secret := None;
                   args_verify := true; args_token := Some "abc" |}))
    by reflexivity.
  unfold main. rewrite Hp. unfold dispatch.
  cbn [args_verify args_token args_secret].
  unfold verify_token. cbv zeta. rewrite py_or_resolve. unfold call.
  destruct (jwt_decode L (clock h) "abc" (resolve_secret h None) ["HS256"])
    as [payload | e]; simpl.
  - eauto.
  - destruct (isinstance e "jwt.ExpiredSignatureError"); simpl; [eauto|].
    destruct (isinstance e "jwt.InvalidTokenError"); simpl; [eauto|].
    destruct (isinstance e "ValueError"); simpl; eauto.
Qed.

(** * Further properties of the code *)

(** ** Steps of the argument scan *)

Lemma scan_cons (a : string) (rest : list string) (s : seen) :
  scan (a :: rest) s
  = match option_of_string a with
    | Some Ohelp => Some (inr 0)
    | Some Overify => scan rest (store_true s)
    | Some o =>
        match rest with
        | [] => Some (inr 2)
        | v :: rest' =>
            if starts_with_dash v then
              match option_of_string v with
              | Some _ => Some (inr 2)
              | None => None
              end
            else scan rest' (store o v s)
        end
    | None => if starts_with_dash a then None else scan rest (stray s)
    end.
Proof. reflexivity. Qed.

Lemma option_of_string_names (a : string) (o : option_name) :
  option_of_string a = Some o -> In a (option_names o).
Proof.
  unfold option_of_string.
  repeat match goal with
         | |- context [String.eqb a ?x] =>
             destruct (String.eqb_spec a x);
             [subst a; simpl; intros [= <-]; simpl; auto 10 |]
         end.
  simpl. discriminate.
Qed.

Lemma option_starts_with_dash (a : string) (o : option_name) :
  option_of_string a = Some o -> starts_with_dash a = true.
Proof.
  intros H. apply option_of_string_names in H.
  destruct o; simpl in H; intuition (subst; reflexivity).
Qed.

(** Every answer of [scan] is a run of [scanned]. *)
Lemma scan_scanned (argv : list string) :
  (forall s r, scan argv s = Some r -> scanned argv s r) /\
  (forall a s r, scan (a :: argv) s = Some r -> scanned (a :: argv) s r).
Proof.
  induction argv as [|v rest [IH1 IH2]].
  - split.
    + intros s r [= <-]. constructor.
    + intros a s r H. rewrite scan_cons in H.
      destruct (option_of_string a) as [o|] eqn:Ho.
      * destruct o; try (injection H as <-; eapply scanned_no_value; eauto).
        -- apply scanned_flag; [assumption|].
           injection H as <-. constructor.
        -- injection H as <-. apply scanned_help. assumption.
      * destruct (starts_with_dash a) eqn:Hd; [discriminate|].
        apply scanned_stray; try assumption.
        injection H as <-. constructor.
  - split; [intros s r; apply IH2|].
    intros a s r H. rewrite scan_cons in H.
    destruct (option_of_string a) as [o|] eqn:Ho.
    + destruct o;
        try (destruct (starts_with_dash v) eqn:Hd;
             [ destruct (option_of_string v) as [o'|] eqn:Hv;
               [ injection H as <-; eapply scanned_option_for_value; eauto
               | discriminate ]
             | eapply scanned_store; eauto ]).
      * apply scanned_flag; auto.
      * injection H as <-. apply scanned_help. assumption.
    + destruct (starts_with_dash a) eqn:Hd; [discriminate|].
      apply scanned_stray; auto.
Qed.

Lemma seen_value_store_other (o o' : option_name) (v : string) (s : seen) :
  o <> o' -> seen_value o' (store o v s) = seen_value o' s.
Proof. destruct o, o'; simpl; congruence. Qed.

(** An option that does not occur keeps what was stored for it. *)
Lemma scanned_keeps (o : option_name) (argv : list string) (s s' : seen) :
  scanned argv s (inl s') ->
  (forall a, In a argv -> ~ In a (option_names o)) ->
  seen_value o s' = seen_value o s.
Proof.
  intros H. remember (inl s') as r eqn:Hr. revert s' Hr.
  induction H as [s | | a rest s r Ha H IH | a v o' rest s r Ha Ht Hv H IH
                  | | | a rest s r Ha Hd H IH]; intros s' Hr Hno;
    try discriminate.
  - injection Hr as ->. reflexivity.
  - rewrite (IH s' Hr) by (intros b Hb; apply Hno; right; exact Hb).
    destruct o; reflexivity.
  - rewrite (IH s' Hr) by (intros b Hb; apply Hno; right; right; exact Hb).
    apply seen_value_store_other. intros ->.
    apply (Hno a); [left; reflexivity|].
    apply option_of_string_names. assumption.
  - rewrite (IH s' Hr) by (intros b Hb; apply Hno; right; exact Hb).
    destruct o; reflexivity.
Qed.

(** The verify flag is set by its own option and by nothing else. *)
Lemma scanned_verify (argv : list string) (s s' : seen) :
  scanned argv s (inl s') ->
  seen_verify s' = true <->
  seen_verify s = true \/ exists a, In a argv /\ In a (option_names Overify).
Proof.
  intros H. remember (inl s') as r eqn:Hr. revert s' Hr.
  induction H as [s | | a rest s r Ha H IH | a v o' rest s r Ha Ht Hv H IH
                  | | | a rest s r Ha Hd H IH]; intros s' Hr;
    try discriminate.
  - injection Hr as ->. split; [auto|]. intros [H | (a & [] & _)]. exact H.
  - rewrite (IH s' Hr). split.
    + intros _. right. exists a. split; [left; reflexivity|].
      apply option_of_string_names. assumption.
    + intros _. left. reflexivity.
  - rewrite (IH s' Hr).
    assert (Hsame : seen_verify (store o' v s) = seen_verify s)
      by (destruct o'; reflexivity).
    rewrite Hsame. split.
    + intros [Hs | (b & Hb & Hn)]; [auto|].
      right. exists b. split; [right; right; exact Hb | exact Hn].
    + intros [Hs | (b & [<- | [<- | Hb]] & Hn)]; [auto | | | eauto].
      * exfalso. simpl in Hn.
        destruct Hn as [<- | [<- | []]]; vm_compute in Ha;
          injection Ha as <-; discriminate.
      * exfalso. simpl in Hn. destruct Hn as [<- | [<- | []]]; discriminate.
  - rewrite (IH s' Hr).
    change (seen_verify (stray s)) with (seen_verify s). split.
    + intros [Hs | (b & Hb & Hn)]; [auto|].
      right. exists b. split; [right; exact Hb | exact Hn].
    + intros [Hs | (b & [<- | Hb] & Hn)]; [auto | | eauto].
      exfalso. simpl in Hn. destruct Hn as [<- | [<- | []]]; discriminate.
Qed.

Lemma scanned_status (argv : list string) (s : seen) (status : Z) :
  scanned argv s (inr status) -> status = 0 \/ status = 2.
Proof.
  intros H. remember (inr status) as r eqn:Hr. revert Hr.
  induction H; intros Hr; try discriminate; try (injection Hr as <-); auto.
Qed.

(** A scan that ran to the end goes on with what follows. *)
Lemma scanned_app (argv more : list string) (s s' : seen) :
  scanned argv s (inl s') -> scan (argv ++ more) s = scan more s'.
Proof.
  intros H. remember (inl s') as r eqn:Hr. revert s' Hr.
  induction H as [s | | a rest s r Ha H IH | a v o' rest s r Ha Ht Hv H IH
                  | | | a rest s r Ha Hd H IH]; intros s' Hr;
    try discriminate.
  - injection Hr as ->. reflexivity.
  - simpl app. rewrite scan_cons, Ha. apply IH. assumption.
  - simpl app. rewrite scan_cons, Ha, Hv.
    destruct o'; try discriminate; apply IH; assumption.
  - simpl app. rewrite scan_cons, Ha, Hd. apply IH. assumption.
Qed.

(** ** Durations and dates in [create_token] *)

(** X1.  Lines 30-35 only ever produce a whole number of hours, no further from
    zero than [timedelta] allows: 999999999 days back, 999999999 days and
    23 hours ahead. *)
Theorem expires_delta_range (h : Host) (expires_in : string)
    (delta : timedelta) :
  expires_delta h expires_in = Return delta ->
  exists n : Z,
    total_seconds delta = n * 3600 /\
    - max_delta_days * 86400 <= total_seconds delta
      <= max_delta_days * 86400 + 23 * 3600.
Proof.
  unfold expires_delta, timedelta_hours, timedelta_days, max_delta_days.
  destruct (endswith expires_in "h").
  - destruct (py_int _ _) as [n|e]; [|discriminate].
    destruct (_ && _) eqn:Hb; [|discriminate]. intros [= <-].
    apply andb_true_iff in Hb as [Hlo Hhi].
    apply Z.leb_le in Hlo. apply Z.leb_le in Hhi.
    pose proof (Z.div_mod n 24 ltac:(lia)).
    pose proof (Z.mod_pos_bound n 24 ltac:(lia)).
    exists n. simpl. lia.
  - destruct (endswith expires_in "d").
    + destruct (py_int _ _) as [n|e]; [|discriminate].
      destruct (_ && _) eqn:Hb; [|discriminate]. intros [= <-].
      apply andb_true_iff in Hb as [Hlo Hhi].
      apply Z.leb_le in Hlo. apply Z.leb_le in Hhi.
      exists (n * 24). simpl. lia.
    + intros [= <-]. exists 24. simpl. lia.
Qed.

Lemma expires_delta_range_witness :
  expires_delta (Reference.utc_host 0) "-3d" = Return (Timedelta (-259200)) /\
  exists n : Z,
    -259200 = n * 3600 /\
    - max_delta_days * 86400 <= -259200
      <= max_delta_days * 86400 + 23 * 3600.
Proof.
  split; [reflexivity|].
  exact (expires_delta_range (Reference.utc_host 0) "-3d"
           (Timedelta (-259200)) eq_refl).
Defined.

(** X2.  Line 39: a duration that carries the expiry out of the years 1 to 9999
    ends [create_token] with the [OverflowError] of the addition, before
    anything is printed and without a call to the library. *)
Theorem expiry_outside_the_calendar (L : Library) (h : Host)
    (subject : string) (name : option string) (expires_in : string)
    (secret : option string) (delta : timedelta) :
  expires_delta h expires_in = Return delta ->
  wall (now h) + total_seconds delta * 1000000 < datetime_min \/
  datetime_max < wall (now h) + total_seconds delta * 1000000 ->
  create_token L h subject name expires_in secret = ([], Raise OverflowError).
Proof.
  intros Hd Hout. unfold create_token. cbv zeta.
  rewrite Hd, bind_lift_return.
  replace (datetime_add (now h) delta) with (@Raise datetime OverflowError);
    [reflexivity|].
  unfold datetime_add. cbv zeta.
  destruct (_ && _) eqn:Hb; [|reflexivity].
  apply andb_true_iff in Hb as [Hlo Hhi].
  apply Z.leb_le in Hlo. apply Z.leb_le in Hhi. lia.
Qed.

Lemma expiry_outside_the_calendar_witness :
  expires_delta (Reference.utc_host 0) "3000000d"
  = Return (Timedelta 259200000000) /\
  datetime_max < Reference.noon + 259200000000 * 1000000 /\
  create_token Reference.pyjwt (Reference.utc_host 0) "u" None "3000000d" None
  = ([], Raise OverflowError).
Proof.
  split; [reflexivity|]. split; [reflexivity|].
  apply (expiry_outside_the_calendar Reference.pyjwt (Reference.utc_host 0)
           "u" None "3000000d" None (Timedelta 259200000000) eq_refl).
  right. reflexivity.
Defined.

(** X3.  Lines 38-46, for every duration the parsing yields, the 24-hour
    default included.  Suppose [int(timestamp())] of the issue time and of
    the expiry time is the POSIX time of the reading at one UTC offset,
    cut to the whole second: no change of offset lies between the two, and
    the double does not round the time up.  Suppose neither time is before
    1970.  Then the claims printed and encoded have [iat] the whole second
    of the issue time and [exp] exactly the parsed duration later. *)
Theorem claims_span_the_duration (L : Library) (h : Host) (subject : string)
    (name : option string) (expires_in : string) (secret : option string)
    (delta : timedelta) (offset : Z) (ev : list event) (token : string) :
  create_token L h subject name expires_in secret = (ev, Return token) ->
  expires_delta h expires_in = Return delta ->
  reads_second h offset (now h) ->
  reads_second h offset
    (Datetime (wall (now h) + total_seconds delta * 1000000) false) ->
  0 <= wall (now h) - offset * 1000000 ->
  0 <= wall (now h) - offset * 1000000 + total_seconds delta * 1000000 ->
  ev = [Print_payload
          (claims subject ((wall (now h) - offset * 1000000) / 1000000)
             ((wall (now h) - offset * 1000000) / 1000000
              + total_seconds delta));
        Jwt_encode
          (payload_of subject name
             ((wall (now h) - offset * 1000000) / 1000000)
             ((wall (now h) - offset * 1000000) / 1000000
              + total_seconds delta))
          (resolve_secret h secret) "HS256"].
Proof.
  intros Hc Hd (x1 & Ht1 & Hi1) (x2 & Ht2 & Hi2) H0 H1.
  assert (Ha : datetime_add (now h) delta
               = Return (Datetime
                           (wall (now h) + total_seconds delta * 1000000)
                           false)).
  { destruct (create_token_cases L h subject name expires_in secret)
      as [(e & He & _) | (delta' & ea & y1 & y2 & Hd' & Ha & _)].
    - rewrite He in Hc. discriminate.
    - rewrite Hd in Hd'. injection Hd' as <-.
      rewrite Ha. f_equal. apply (datetime_add_return _ _ _ Ha). }
  rewrite (create_token_run L h subject name expires_in secret
             _ _ _ _ Hd Ha Ht1 Ht2) in Hc.
  injection Hc as <- _. rewrite Hi1, Hi2. simpl wall.
  rewrite (Z.quot_div_nonneg (wall (now h) - offset * 1000000)) by lia.
  replace (wall (now h) + total_seconds delta * 1000000 - offset * 1000000)
    with (wall (now h) - offset * 1000000 + total_seconds delta * 1000000)
    by lia.
  rewrite Z.quot_div_nonneg, Z.div_add by lia.
  reflexivity.
Qed.

Lemma claims_span_the_duration_witness :
  create_token Reference.pyjwt (Reference.utc_host 0) "u" None "30m" None
  = ([Print_payload (claims "u" 1772884800 1772971200);
      Jwt_encode (claims "u" 1772884800 1772971200) fallback_secret "HS256"],
     Return (Reference.ser_token fallback_secret
               (claims "u" 1772884800 1772971200))) /\
  [Print_payload (claims "u" 1772884800 1772971200);
   Jwt_encode (claims "u" 1772884800 1772971200) fallback_secret "HS256"]
  = [Print_payload (claims "u" 1772884800 (1772884800 + 86400));
     Jwt_encode (claims "u" 1772884800 (1772884800 + 86400))
       fallback_secret "HS256"].
Proof.
  split; [reflexivity|].
  refine (claims_span_the_duration Reference.pyjwt (Reference.utc_host 0)
            "u" None "30m" None (Timedelta 86400) 0 _ _ eq_refl eq_refl
            _ _ _ _).
  - eexists. split; reflexivity.
  - eexists. split; reflexivity.
  - discriminate.
  - discriminate.
Defined.

(** ** Verifying what was issued *)

(** X12.  Lines 56-70 after lines 42-54.  With a library that decodes its
    own tokens while they are live, [verify_token] on a token that
    [create_token] returned, with the same secret argument and the same
    [JWT_SECRET], from the [iat] of the token on and before its [exp],
    returns the very claims that were encoded: [sub] is the subject, [iat]
    and [exp] are the ones printed at issue, and [name] is there when a
    non-empty name was given. *)
Theorem verify_returns_issued_claims (L : Library) (h h' : Host)
    (subject : string) (name : option string) (expires_in : string)
    (secret : option string) (iat exp : Z) (sent : dict) (token : string) :
  round_trips L ->
  create_token L h subject name expires_in secret
  = ([Print_payload (claims subject iat exp);
      Jwt_encode sent (resolve_secret h secret) "HS256"],
     Return token) ->
  environ h' !! "JWT_SECRET" = environ h !! "JWT_SECRET" ->
  (inject_Z iat <= clock h')%Q ->
  (clock h' < inject_Z exp)%Q ->
  sent = payload_of subject name iat exp /\
  verify_token L h' token secret
  = ([Jwt_decode token (resolve_secret h' secret) ["HS256"]], Return sent) /\
  dict_get sent "sub" = Some (PStr subject) /\
  dict_get sent "iat" = Some (PInt iat) /\
  dict_get sent "exp" = Some (PInt exp).
Proof.
  intros HL Hc Henv Hle Hlt.
  destruct (create_token_cases L h subject name expires_in secret)
    as [(e & He & _) | (delta & ea & x1 & x2 & Hd & Ha & H1 & H2)].
  { rewrite He in Hc. discriminate. }
  rewrite (create_token_run L h subject name expires_in secret
             _ _ _ _ Hd Ha H1 H2) in Hc.
  injection Hc as Hiat Hexp Hsent Henc.
  rewrite Hiat, Hexp in Hsent, Henc. subst sent.
  split; [reflexivity|]. split.
  - rewrite verify_token_run.
    assert (Hkey : resolve_secret h' secret = resolve_secret h secret)
      by (unfold resolve_secret; rewrite Henv; reflexivity).
    rewrite Hkey, (HL _ _ _ _ _ _ (clock h') Henc Hle Hlt). reflexivity.
  - destruct name as [[|c r]|]; repeat split; reflexivity.
Qed.

Lemma verify_returns_issued_claims_witness :
  create_token Reference.pyjwt (Reference.utc_host 0) "u" (Some "Ann") "2h"
    (Some "k")
  = ([Print_payload (claims "u" 1772884800 1772892000);
      Jwt_encode (payload_of "u" (Some "Ann") 1772884800 1772892000)
        "k" "HS256"],
     Return (Reference.ser_token "k"
               (payload_of "u" (Some "Ann") 1772884800 1772892000))) /\
  verify_token Reference.pyjwt (Reference.utc_host (1772884801 # 1))
    (Reference.ser_token "k"
       (payload_of "u" (Some "Ann") 1772884800 1772892000))
    (Some "k")
  = ([Jwt_decode
        (Reference.ser_token "k"
           (payload_of "u" (Some "Ann") 1772884800 1772892000))
        "k" ["HS256"]],
     Return (payload_of "u" (Some "Ann") 1772884800 1772892000)).
Proof.
  split; [reflexivity|].
  refine (proj1 (proj2 (verify_returns_issued_claims Reference.pyjwt
            (Reference.utc_host 0) (Reference.utc_host (1772884801 # 1))
            "u" (Some "Ann") "2h" (Some "k") 1772884800 1772892000
            (payload_of "u" (Some "Ann") 1772884800 1772892000) _
            pyjwt_round_trips eq_refl eq_refl _ _))).
  - discriminate.
  - reflexivity.
Defined.

(** ** The two modes of the dispatcher *)

Lemma Forall_claim_lines (P : event -> Prop) (decoded : dict) :
  (forall k v, P (Print_claim k v)) ->
  Forall P (map (fun kv => Print_claim (fst kv) (snd kv)) decoded).
Proof.
  intros HP. induction decoded as [|[k v] r IH]; simpl; constructor; auto.
Qed.



(** X5.  Lines 87-97 with [verify_token].  With a non-empty token, verify mode
    calls [jwt.decode] once and then: on success prints the header and one
    line for each claim, in the order of the payload, status 0; on an
    expired or otherwise invalid token prints the error line of the
    [ValueError] that [verify_token] made, status 0; on a [ValueError] of
    the library's own prints that one, status 0, because line 96 catches
    it; on any other exception prints nothing more and ends with 1. *)
Theorem verify_mode_runs (L : Library) (h : Host) (args : Namespace)
    (token : string) :
  args_verify args = true ->
  args_token args = Some token ->
  token <> "" ->
  let key := resolve_secret h (args_secret args) in
  let called := Jwt_decode token key ["HS256"] in
  match jwt_decode L (clock h) token key ["HS256"] with
  | Return payload =>
      dispatch L h args
      = (called :: Print "Token is valid. Payload:"
           :: map (fun kv => Print_claim (fst kv) (snd kv)) payload, 0)
  | Raise e =>
      if isinstance e "jwt.ExpiredSignatureError" then
        dispatch L h args
        = ([called; Print_error (ValueError (Some "Token has expired"))], 0)
      else if isinstance e "jwt.InvalidTokenError" then
        dispatch L h args
        = ([called; Print_error (ValueError (Some "Invalid token"))], 0)
      else if isinstance e "ValueError" then
        dispatch L h args = ([called; Print_error e], 0)
      else dispatch L h args = ([called], 1)
  end.
Proof.
  intros Hv Ht Hne. cbv zeta. unfold dispatch. rewrite Hv, Ht.
  destruct token as [|c r]; [contradiction|].
  unfold verify_token, call. cbv zeta. rewrite py_or_resolve.
  destruct (jwt_decode L (clock h) (String c r)
              (resolve_secret h (args_secret args)) ["HS256"])
    as [payload | e]; [reflexivity|].
  destruct (isinstance e "jwt.ExpiredSignatureError"); [reflexivity|].
  destruct (isinstance e "jwt.InvalidTokenError"); [reflexivity|].
  destruct (isinstance e "ValueError"); reflexivity.
Qed.

Lemma verify_mode_runs_witness :
  dispatch Reference.pyjwt (Reference.utc_host 0)
    {| args_subject := "u"; args_name := None; args_expires := "24h";
       args_secret := None; args_verify := true; args_token := Some "abc" |}
  = ([Jwt_decode "abc" fallback_secret ["HS256"];
      Print_error (ValueError (Some "Invalid token"))], 0).
Proof.
  exact (verify_mode_runs Reference.pyjwt (Reference.utc_host 0)
           {| args_subject := "u"; args_name := None; args_expires := "24h";
              args_secret := None; args_verify := true;
              args_token := Some "abc" |} "abc" eq_refl eq_refl
           ltac:(discriminate)).
Defined.

(** X6.  Lines 87-100.  A run does the work of one mode only: verify mode never
    prints the "create token" line and never calls [jwt.encode]; issue
    mode never calls [jwt.decode] and never prints a claim line or an
    error line. *)
Theorem modes_are_exclusive (L : Library) (h : Host) (args : Namespace) :
  if args_verify args
  then Forall (fun e => issue_event e = false) (fst (dispatch L h args))
  else Forall (fun e => verify_event e = false) (fst (dispatch L h args)).
Proof.
  unfold dispatch. destruct (args_verify args).
  - destruct (args_token args) as [[|c r]|];
      try (repeat constructor).
    unfold verify_token, call. cbv zeta.
    destruct (jwt_decode L _ _ _ _) as [payload | e].
    + simpl. repeat constructor. apply Forall_claim_lines. reflexivity.
    + destruct (isinstance e "jwt.ExpiredSignatureError");
        [simpl; repeat constructor|].
      destruct (isinstance e "jwt.InvalidTokenError");
        [simpl; repeat constructor|].
      destruct (isinstance e "ValueError"); simpl; repeat constructor.
  - destruct (create_token_cases L h (args_subject args) (args_name args)
                (args_expires args) (args_secret args))
      as [(e & He & _) | (delta & ea & x1 & x2 & Hd & Ha & H1 & H2)].
    + rewrite He. constructor.
    + rewrite (create_token_run L h _ _ _ _ _ _ _ _ Hd Ha H1 H2).
      destruct (jwt_encode L _ _ _); simpl; repeat constructor.
Qed.

(** X7.  Lines 53 and 69.  Whatever the arguments, every call the program makes
    into the library names HMAC-SHA256 and no other algorithm. *)
Theorem only_hs256 (L : Library) (h : Host) (args : Namespace) :
  Forall hs256_only (fst (dispatch L h args)).
Proof.
  unfold dispatch. destruct (args_verify args).
  - destruct (args_token args) as [[|c r]|];
      try (repeat constructor).
    unfold verify_token, call. cbv zeta.
    destruct (jwt_decode L _ _ _ _) as [payload | e].
    + simpl. repeat constructor. apply Forall_claim_lines. constructor.
    + destruct (isinstance e "jwt.ExpiredSignatureError");
        [simpl; repeat constructor|].
      destruct (isinstance e "jwt.InvalidTokenError");
        [simpl; repeat constructor|].
      destruct (isinstance e "ValueError"); simpl; repeat constructor.
  - destruct (create_token_cases L h (args_subject args) (args_name args)
                (args_expires args) (args_secret args))
      as [(e & He & _) | (delta & ea & x1 & x2 & Hd & Ha & H1 & H2)].
    + rewrite He. constructor.
    + rewrite (create_token_run L h _ _ _ _ _ _ _ _ Hd Ha H1 H2).
      destruct (jwt_encode L _ _ _); simpl; repeat constructor.
Qed.

(** ** The command line as a whole *)

Lemma dispatch_status (L : Library) (h : Host) (args : Namespace) :
  snd (dispatch L h args) = 0 \/ snd (dispatch L h args) = 1.
Proof.
  unfold dispatch. destruct (args_verify args).
  - destruct (args_token args) as [[|c r]|]; auto.
    destruct (verify_token L h (String c r) (args_secret args))
      as [ev [payload | e]]; auto.
    destruct (isinstance e "ValueError"); auto.
  - destruct (create_token L h _ _ _ _) as [ev [token | e]]; auto.
Qed.

(** X8.  Lines 76-100.  The process ends with 0, 1 or 2, and with 2 only out of
    argparse, before anything is printed. *)
Theorem exit_status_range (L : Library) (h : Host) (argv : list string)
    (ev : list event) (status : Z) :
  main L h argv = Some (ev, status) ->
  (status = 0 \/ status = 1 \/ status = 2) /\
  (status = 2 -> ev = [] /\ parse_args argv = Some (Parser_exit 2)).
Proof.
  unfold main.
  destruct (parse_args argv) as [[args | st]|] eqn:Hp; [| |discriminate].
  - intros [= Hd]. pose proof (dispatch_status L h args) as Hs.
    rewrite Hd in Hs. simpl in Hs. split; [tauto|].
    intros ->. destruct Hs; discriminate.
  - intros [= <- <-].
    assert (Hst : st = 0 \/ st = 2).
    { unfold parse_args in Hp.
      destruct (scan argv nothing_seen) as [[s | st']|] eqn:Hs;
        [| |discriminate].
      - destruct (seen_subject s); [destruct (seen_extras s)|];
          try discriminate; injection Hp as <-; auto.
      - injection Hp as <-.
        apply scan_scanned, scanned_status in Hs. exact Hs. }
    destruct Hst as [-> | ->]; simpl; split; auto.
    intros; discriminate.
Qed.

Lemma exit_status_range_witness :
  main Reference.pyjwt (Reference.utc_host 0) ["--name"; "Ann"]
  = Some ([], 2) /\
  (2 = 0 \/ 2 = 1 \/ 2 = 2) /\
  (2 = 2 -> @nil event = [] /\
            parse_args ["--name"; "Ann"] = Some (Parser_exit 2)).
Proof.
  split; [reflexivity|].
  exact (exit_status_range Reference.pyjwt (Reference.utc_host 0)
           ["--name"; "Ann"] [] 2 eq_refl).
Defined.

(** X9.  Lines 78 and 85, for a command line in the plain form, the one
    [main] answers for: every option under one of its two exact names,
    every value a separate argument without a leading dash.  Without
    [--subject] or [-s] among the arguments no mode runs, verify mode
    included: the process ends in argparse, with status 2 and nothing
    printed, or with the help text and status 0.  (An abbreviation such as
    [--sub] is outside the plain form.) *)
Theorem subject_is_always_required (L : Library) (h : Host)
    (argv : list string) (run : list event * Z) :
  ~ In "--subject" argv ->
  ~ In "-s" argv ->
  main L h argv = Some run ->
  run = ([], 2) \/ run = ([Print_help], 0).
Proof.
  intros Hlong Hshort. unfold main, parse_args.
  destruct (scan argv nothing_seen) as [[s | st]|] eqn:Hs; [| |discriminate].
  - apply scan_scanned in Hs.
    assert (Hsub : seen_value Osubject s = seen_value Osubject nothing_seen).
    { apply (scanned_keeps Osubject argv _ _ Hs).
      intros a Ha [<- | [<- | []]]; contradiction. }
    simpl in Hsub. rewrite Hsub. intros [= <-]. left. reflexivity.
  - apply scan_scanned, scanned_status in Hs as [-> | ->];
      intros [= <-]; auto.
Qed.

Lemma subject_is_always_required_witness :
  ~ In "--subject" ["-v"; "-t"; "abc"; "--secret"; "k"] /\
  ~ In "-s" ["-v"; "-t"; "abc"; "--secret"; "k"] /\
  main Reference.pyjwt (Reference.utc_host 0)
    ["-v"; "-t"; "abc"; "--secret"; "k"] = Some ([], 2) /\
  (([], 2) = (@nil event, 2) \/ ([], 2) = ([Print_help], 0)).
Proof.
  assert (Hlong : ~ In "--subject" ["-v"; "-t"; "abc"; "--secret"; "k"])
    by (simpl; intuition discriminate).
  assert (Hshort : ~ In "-s" ["-v"; "-t"; "abc"; "--secret"; "k"])
    by (simpl; intuition discriminate).
  split; [exact Hlong|]. split; [exact Hshort|]. split; [reflexivity|].
  exact (subject_is_always_required Reference.pyjwt (Reference.utc_host 0)
           ["-v"; "-t"; "abc"; "--secret"; "k"] ([], 2) Hlong Hshort eq_refl).
Defined.

(** X10.  Lines 77-85, for a command line in the plain form, the one
    [parse_args] answers for: every option under one of its two exact
    names, every value a separate argument without a leading dash.  In the
    arguments argparse hands over, [verify] is set exactly when [--verify]
    or [-v] is among the arguments; [expires] is ["24h"], and [name],
    [secret] and [token] are [None], when their options are not among
    them; and [--subject] or [-s] is among them. *)
Theorem parsed_arguments (argv : list string) (args : Namespace) :
  parse_args argv = Some (Parsed args) ->
  (args_verify args = true <-> In "--verify" argv \/ In "-v" argv) /\
  (~ In "--expires" argv -> ~ In "-e" argv -> args_expires args = "24h") /\
  (~ In "--name" argv -> ~ In "-n" argv -> args_name args = None) /\
  (~ In "--secret" argv -> args_secret args = None) /\
  (~ In "--token" argv -> ~ In "-t" argv -> args_token args = None) /\
  (In "--subject" argv \/ In "-s" argv).
Proof.
  unfold parse_args.
  destruct (scan argv nothing_seen) as [[s | st]|] eqn:Hs; try discriminate.
  apply scan_scanned in Hs.
  destruct (seen_subject s) as [subject|] eqn:Hsub; [|discriminate].
  destruct (seen_extras s); [discriminate|]. intros [= <-]. simpl.
  assert (Hkeep : forall o,
             (forall a, In a argv -> ~ In a (option_names o)) ->
             seen_value o s = seen_value o nothing_seen)
    by (intros o; apply (scanned_keeps o argv _ _ Hs)).
  repeat split.
  - intros Hv. apply (scanned_verify _ _ _ Hs) in Hv
      as [Hf | (a & Ha & [<- | [<- | []]])]; [discriminate | auto | auto].
  - intros Hin. apply (scanned_verify _ _ _ Hs). right.
    destruct Hin; [exists "--verify" | exists "-v"]; simpl; auto.
  - intros H1 H2.
    assert (Hnone : seen_value Oexpires s = None).
    { apply (Hkeep Oexpires). intros a Ha [<- | [<- | []]]; contradiction. }
    simpl in Hnone. rewrite Hnone. reflexivity.
  - intros H1 H2. apply (Hkeep Oname).
    intros a Ha [<- | [<- | []]]; contradiction.
  - intros H1. apply (Hkeep Osecret).
    intros a Ha [<- | []]; contradiction.
  - intros H1 H2. apply (Hkeep Otoken).
    intros a Ha [<- | [<- | []]]; contradiction.
  - destruct (in_dec string_dec "--subject" argv) as [|Hlong]; [auto|].
    destruct (in_dec string_dec "-s" argv) as [|Hshort]; [auto|].
    exfalso.
    assert (Hnone : seen_value Osubject s = None).
    { apply (Hkeep Osubject). intros a Ha [<- | [<- | []]]; contradiction. }
    simpl in Hnone. congruence.
Qed.

Lemma parsed_arguments_witness :
  parse_args ["-s"; "u"; "-v"]
  = Some (Parsed {| args_subject := "u"; args_name := None;
                    args_expires := "24h"; args_secret := None;
                    args_verify := true; args_token := None |}) /\
  (true = true <-> In "--verify" ["-s"; "u"; "-v"] \/ In "-v" ["-s"; "u"; "-v"]).
Proof.
  split; [reflexivity|].
  exact (proj1 (parsed_arguments ["-s"; "u"; "-v"]
                  {| args_subject := "u"; args_name := None;
                     args_expires := "24h"; args_secret := None;
                     args_verify := true; args_token := None |} eq_refl)).
Defined.

(** X11.  Lines 77-85.  After a command line argparse accepts, one more option
    changes that argument and nothing else: [--verify] switches to verify
    mode; [--subject], [--expires] and [--token] with a value replace what
    was given before; [--help] prints the help and ends with 0 instead;
    [--token] without its value ends with 2. *)
Theorem appended_arguments (argv : list string) (args : Namespace) :
  parse_args argv = Some (Parsed args) ->
  parse_args (argv ++ ["--verify"]) = Some (Parsed (with_verify args)) /\
  parse_args (argv ++ ["--help"]) = Some (Parser_exit 0) /\
  parse_args (argv ++ ["--token"]) = Some (Parser_exit 2) /\
  forall v : string,
    starts_with_dash v = false ->
    parse_args (argv ++ ["--subject"; v]) = Some (Parsed (with_subject v args))
    /\
    parse_args (argv ++ ["--expires"; v]) = Some (Parsed (with_expires v args))
    /\
    parse_args (argv ++ ["--token"; v]) = Some (Parsed (with_token v args)).
Proof.
  unfold parse_args.
  destruct (scan argv nothing_seen) as [[s | st]|] eqn:Hs; try discriminate.
  apply scan_scanned in Hs.
  destruct (seen_subject s) as [subject|] eqn:Hsub; [|discriminate].
  destruct (seen_extras s) eqn:Hex; [discriminate|]. intros [= <-].
  rewrite !(scanned_app _ _ _ _ Hs).
  split; [|split; [|split]].
  - simpl. rewrite Hsub, Hex. reflexivity.
  - reflexivity.
  - reflexivity.
  - intros v Hv. rewrite !(scanned_app _ _ _ _ Hs), !scan_cons. simpl.
    rewrite Hv. simpl. rewrite Hsub, Hex. repeat split; reflexivity.
Qed.

Lemma appended_arguments_witness :
  parse_args ["-s"; "u"] <> None /\
  parse_args (["-s"; "u"] ++ ["--verify"])
  = Some (Parsed {| args_subject := "u"; args_name := None;
                    args_expires := "24h"; args_secret := None;
                    args_verify := true; args_token := None |}).
Proof.
  split; [discriminate|].
  exact (proj1 (appended_arguments ["-s"; "u"]
                  {| args_subject := "u"; args_name := None;
                     args_expires := "24h"; args_secret := None;
                     args_verify := false; args_token := None |} eq_refl)).
Defined.
